(** * Vetur: TypeScript service preprocessing of Vue component files

    A shallow embedding of
    [server/src/services/typescriptService/preprocess.ts]: the extraction
    helpers [parseVueScript] and [parseVueTemplate], the script rewrite
    [modifyVueScript], the template injection [injectVueTemplate] and the
    two language-service hooks returned by [createUpdater].

    Strings are Rocq strings, read as sequences of code units below 256.
    Offsets are [Z], as JavaScript numbers holding integers.  Source files
    are objects with an identity: the updater's [WeakMap] and [WeakSet] are
    keyed by that identity and the trees live in a store. *)

From Stdlib Require Import ZArith Ascii String.
From stdpp Require Import base option list strings gmap.

Local Open Scope Z_scope.
Local Open Scope string_scope.

(** ** Text ranges and the syntax tree *)

(** [ts.TextRange]: [pos] and [end] ([end] is reserved, hence [end_]). *)
Record TextRange := mkRange { pos : Z; end_ : Z }.

(** Modelled from the spec: the host engine's node construction primitives
    (TypeScript factory functions, not under src/) build synthesized nodes,
    which lack a textual position; TypeScript gives them the range (-1, -1). *)
Definition synthesizedRange : TextRange := mkRange (-1) (-1).

(** [ts.NodeArray<T>]: an array of nodes that carries a range of its own. *)
Record NodeArray (A : Type) := mkNodeArray {
  arrayRange : TextRange;
  items : list A
}.
Arguments mkNodeArray {A} _ _.
Arguments arrayRange {A} _.
Arguments items {A} _.

Record Identifier := mkIdentifier {
  identifierRange : TextRange;
  escapedText : string
}.

Record ImportSpecifier := mkImportSpecifier {
  specifierRange : TextRange;
  propertyName : option Identifier;
  specifierName : Identifier
}.

Record NamedImports := mkNamedImports {
  namedImportsRange : TextRange;
  namedElements : NodeArray ImportSpecifier
}.

Record ImportClause := mkImportClause {
  clauseRange : TextRange;
  clauseName : option Identifier;
  namedBindings : option NamedImports
}.

(** The node kinds the preprocessing inspects or builds; every other kind
    is kept as an opaque node with its [SyntaxKind] number. *)
#[warnings="-register-all"]
Inductive Expression :=
| IdentifierExpression (id : Identifier)
| StringLiteral (range : TextRange) (text : string)
| ObjectLiteralExpression (range : TextRange)
    (properties : list (string * Expression))
| CallExpression (range : TextRange) (expression : Expression)
    (arguments : NodeArray Expression)
| FunctionExpression (range : TextRange) (body : Block)
| OtherExpression (range : TextRange) (kind : nat)
with Block :=
| mkBlock (range : TextRange) (blockStatements : NodeArray Statement)
with Statement :=
| ExportAssignment (range : TextRange) (isExportEquals : bool)
    (expression : Expression)
| ImportDeclaration (range : TextRange) (importClause : option ImportClause)
    (moduleSpecifier : Expression)
| ExpressionStatement (range : TextRange) (expression : Expression)
| OtherStatement (range : TextRange) (kind : nat).

Inductive ScriptKind :=
| Unknown | JS | JSX | TS | TSX | External | JSON | Deferred.

Record SourceFile := mkSourceFile {
  fileName : string;
  statements : NodeArray Statement;
  externalModuleIndicator : option Statement;
  languageVersion : nat
}.

(** Everything with a [pos] and an [end]: the bound [T extends ts.TextRange]
    of [setTextRange] and of the wrapper range setter. *)
Class TextRanged (T : Type) := {
  getTextRange : T -> TextRange;
  withTextRange : T -> TextRange -> T
}.

#[export] Instance TextRange_ranged : TextRanged TextRange :=
  {| getTextRange r := r; withTextRange _ r := r |}.

#[export] Instance NodeArray_ranged {A} : TextRanged (NodeArray A) :=
  {| getTextRange a := arrayRange a;
     withTextRange a r := mkNodeArray r (items a) |}.

#[export] Instance Identifier_ranged : TextRanged Identifier :=
  {| getTextRange i := identifierRange i;
     withTextRange i r := mkIdentifier r (escapedText i) |}.

#[export] Instance ImportClause_ranged : TextRanged ImportClause :=
  {| getTextRange c := clauseRange c;
     withTextRange c r := mkImportClause r (clauseName c) (namedBindings c) |}.

Definition expressionRange (e : Expression) : TextRange :=
  match e with
  | IdentifierExpression id => identifierRange id
  | StringLiteral r _ => r
  | ObjectLiteralExpression r _ => r
  | CallExpression r _ _ => r
  | FunctionExpression r _ => r
  | OtherExpression r _ => r
  end.

Definition expressionWithRange (e : Expression) (r : TextRange) : Expression :=
  match e with
  | IdentifierExpression id =>
      IdentifierExpression (mkIdentifier r (escapedText id))
  | StringLiteral _ t => StringLiteral r t
  | ObjectLiteralExpression _ ps => ObjectLiteralExpression r ps
  | CallExpression _ f args => CallExpression r f args
  | FunctionExpression _ b => FunctionExpression r b
  | OtherExpression _ k => OtherExpression r k
  end.

#[export] Instance Expression_ranged : TextRanged Expression :=
  {| getTextRange := expressionRange; withTextRange := expressionWithRange |}.

Definition statementRange (st : Statement) : TextRange :=
  match st with
  | ExportAssignment r _ _ => r
  | ImportDeclaration r _ _ => r
  | ExpressionStatement r _ => r
  | OtherStatement r _ => r
  end.

Definition statementWithRange (st : Statement) (r : TextRange) : Statement :=
  match st with
  | ExportAssignment _ eq e => ExportAssignment r eq e
  | ImportDeclaration _ c m => ImportDeclaration r c m
  | ExpressionStatement _ e => ExpressionStatement r e
  | OtherStatement _ k => OtherStatement r k
  end.

#[export] Instance Statement_ranged : TextRanged Statement :=
  {| getTextRange := statementRange; withTextRange := statementWithRange |}.

(** ** The TypeScript primitives used by the preprocessing *)

Module ts.

(** Modelled from the spec: the host engine's [setTextRange] primitive
    (TypeScript API, not under src/) assigns the given range to the node
    and hands the node back. *)
Definition setTextRange {T} `{TextRanged T} (node : T) (location : TextRange) : T :=
  withTextRange node location.

(** Modelled from the spec: the host engine's node construction
    primitives for imports, calls, identifiers and literals (TypeScript
    factory functions, not under src/).  Each returns a synthesized node
    holding the given children.  The decorators, modifiers, type
    arguments and function signature arguments, which the preprocessing
    always passes as [undefined] or empty, are left out. *)
Definition createIdentifier (text : string) : Identifier :=
  mkIdentifier synthesizedRange text.

Definition createLiteral (text : string) : Expression :=
  StringLiteral synthesizedRange text.

Definition createNodeArray {A} (elems : list A) : NodeArray A :=
  mkNodeArray synthesizedRange elems.

Definition createImportSpecifier (propertyName : option Identifier)
    (name : Identifier) : ImportSpecifier :=
  mkImportSpecifier synthesizedRange propertyName name.

Definition createNamedImports (elems : list ImportSpecifier) : NamedImports :=
  mkNamedImports synthesizedRange (createNodeArray elems).

Definition createImportClause (name : option Identifier)
    (namedBindings : option NamedImports) : ImportClause :=
  mkImportClause synthesizedRange name namedBindings.

Definition createImportDeclaration (importClause : option ImportClause)
    (moduleSpecifier : Expression) : Statement :=
  ImportDeclaration synthesizedRange importClause moduleSpecifier.

Definition createCall (expression : Expression)
    (argumentsArray : list Expression) : Expression :=
  CallExpression synthesizedRange expression (createNodeArray argumentsArray).

Definition createStatement (expression : Expression) : Statement :=
  ExpressionStatement synthesizedRange expression.

Definition createBlock (stmts : list Statement) : Block :=
  mkBlock synthesizedRange (createNodeArray stmts).

Definition createFunctionExpression (body : Block) : Expression :=
  FunctionExpression synthesizedRange body.

End ts.

(** ** [getWrapperRangeSetter] *)

(** Create a function that calls [setTextRange] on synthetic wrapper nodes
    that need a valid range. *)
Definition RangeSetter : Type := forall T, TextRanged T -> T -> T.

Definition getWrapperRangeSetter (wrapped : TextRange) : RangeSetter :=
  fun T _ wrapperNode => ts.setTextRange wrapperNode wrapped.

(** ** [modifyVueScript] *)

(** The predicate handed to [statements.find]: an export assignment whose
    expression is an object literal. *)
Definition isExportDefaultObject (st : Statement) : bool :=
  match st with
  | ExportAssignment _ _ (ObjectLiteralExpression _ _) => true
  | _ => false
  end.

(** [setObjPos(call.arguments)]: the argument array of a call is ranged in
    place. *)
Definition setArgumentsRange (setPos : NodeArray Expression -> NodeArray Expression)
    (e : Expression) : Expression :=
  match e with
  | CallExpression r f args => CallExpression r f (setPos args)
  | _ => e
  end.

(** The rewrite mutates the source file in place; the function gives the
    content of the object after the call.  [find] yields the first match,
    which sits one slot further after the [unshift].  The
    external-module indicator is carried as the value it had: in a tree
    whose indicator is the export node itself the program shows the
    rewritten node there too, which a value does not express, and nothing
    below is stated about the indicator after the rewrite. *)
Definition modifyVueScript (sourceFile : SourceFile) : SourceFile :=
  match list_find (fun st => isExportDefaultObject st = true)
          (items (statements sourceFile)) with
  | Some (i, ExportAssignment r eq objectLiteral) =>
      (* 1. add `import Vue from 'vue'`, with the span (0,0) *)
      let setZeroPos : RangeSetter := getWrapperRangeSetter (mkRange 0 0) in
      let vueImport :=
        setZeroPos _ _
          (ts.createImportDeclaration
             (Some (setZeroPos _ _
                (ts.createImportClause
                   (Some (ts.createIdentifier "__vueEditorBridge")) None)))
             (setZeroPos _ _ (ts.createLiteral "vue-editor-bridge"))) in
      let unshifted := vueImport :: items (statements sourceFile) in
      (* 2. wrap the export default in `__vueEditorBridge(...)` *)
      let setObjPos : RangeSetter :=
        getWrapperRangeSetter (getTextRange objectLiteral) in
      let vue :=
        ts.setTextRange (ts.createIdentifier "__vueEditorBridge")
          (mkRange (pos (getTextRange objectLiteral))
                   (pos (getTextRange objectLiteral) + 1)) in
      let call :=
        setObjPos _ _
          (ts.createCall (IdentifierExpression vue) [objectLiteral]) in
      let call := setArgumentsRange (setObjPos _ _) call in
      mkSourceFile (fileName sourceFile)
        (mkNodeArray (arrayRange (statements sourceFile))
           (<[S i := ExportAssignment r eq call]> unshifted))
        (externalModuleIndicator sourceFile)
        (languageVersion sourceFile)
  | _ => sourceFile
  end.

(** ** JavaScript string operations *)

(** [s.slice(0, -n)]: the string without its last [n] code units, empty when
    it has no more than [n]. *)
Definition sliceEnd (s : string) (n : nat) : string :=
  substring 0 (String.length s - n) s.

(** The class [\s] on code units below 256: tab, line feed, vertical tab,
    form feed, carriage return, space and no-break space. *)
Definition isWhitespace (c : ascii) : bool :=
  let n := nat_of_ascii c in
  ((9 <=? n)%nat && (n <=? 13)%nat) || (n =? 32)%nat || (n =? 160)%nat.

(** [s.replace(/\s/g, '')] *)
Fixpoint removeWhitespace (s : string) : string :=
  match s with
  | EmptyString => EmptyString
  | String c rest =>
      if isWhitespace c then removeWhitespace rest
      else String c (removeWhitespace rest)
  end.

Definition tenSpaces : string := "          ".

(** [s.replace(/ {10}/, by)]: only the leftmost run of ten spaces is
    replaced. *)
Fixpoint replaceTenSpaces (by_ : string) (s : string) : string :=
  if String.prefix tenSpaces s then by_ +:+ substring 10 (String.length s - 10) s
  else match s with
       | EmptyString => EmptyString
       | String c rest => String c (replaceTenSpaces by_ rest)
       end.

(** [a || b] on strings: the empty string is the only falsy one. *)
Definition orElse (a b : string) : string :=
  if String.eqb a "" then b else a.

(** ** Collaborators outside this file *)

(** A [TextDocument] of one region, as far as it is read here. *)
Record TextDocument := mkTextDocument {
  languageId : string;
  getText : string
}.

(** [ts.IScriptSnapshot] *)
Record IScriptSnapshot := mkSnapshot { snapshotText : string }.

Definition getLength (s : IScriptSnapshot) : nat := String.length (snapshotText s).

Definition snapshotGetText (s : IScriptSnapshot) (start end' : nat) : string :=
  substring start (end' - start) (snapshotText s).

(** A thrown JavaScript value. *)
Definition Exception : Type := string.

(** The outcome of a call that may throw. *)
Inductive Completion (A : Type) :=
| Normal (value : A)
| Throw (err : Exception).
Arguments Normal {A} _.
Arguments Throw {A} _.

(** The outcome of the transform visitor.  A visitor that throws has walked
    part of the template first: [produced] are the expressions it had built
    by then.  They never leave the visitor: the caller sees the exception
    only. *)
Inductive TransformOutcome :=
| Transformed (expressions : list Expression)
| TransformFailed (produced : list Expression) (err : Exception).

(** Modelled from the spec: PositionMap, an ordered sequence of
    (original-range, synthetic-range) pairs; the builder itself
    ([generateSourceMap] of ./sourceMap) is not under src/. *)
Definition TemplateSourceMapNodes : Type := list (TextRange * TextRange).

(** The tree [vue-eslint-parser] returns is only handed on to the
    transform. *)
Definition ESLintProgram : Type := string.

(** The modules this file imports: ../../embeddedSupport/embeddedSupport
    (region documents of a component text), vue-eslint-parser,
    ./transformTemplate, ./sourceMap, ./util and Node's path. *)
Record Collaborators := mkCollaborators {
  (* getVueDocumentRegions(TextDocument.create(..., text)).getSingleTypeDocument(type) *)
  getSingleTypeDocument : string -> string -> TextDocument;
  (* parse(templateCode, { sourceType: 'module' }) *)
  parse : string -> Completion ESLintProgram;
  (* getTemplateTransformFunctions(tsModule).transformTemplate(program, code) *)
  transformTemplate : ESLintProgram -> string -> TransformOutcome;
  componentHelperName : string;
  iterationHelperName : string;
  renderHelperName : string;
  listenerHelperName : string;
  generateSourceMap : SourceFile -> SourceFile -> TemplateSourceMapNodes;
  isVirtualVueTemplateFile : string -> bool;
  extname : string -> string;
  basename : string -> string
}.

Section Preprocess.

Context (env : Collaborators).

Definition isVue (filename : string) : bool :=
  String.eqb (extname env filename) ".vue".

Definition parseVueScript (text : string) : string :=
  let script := getSingleTypeDocument env "script" text in
  orElse (getText script) "export default {};".

Definition parseVueTemplate (text : string) : string :=
  let template := getSingleTypeDocument env "template" text in
  if negb (String.eqb (languageId template) "vue-html") then ""
  else
    let rawText := getText template in
    (* skip checking on empty template *)
    if String.eqb (removeWhitespace rawText) "" then ""
    else replaceTenSpaces "<template>" rawText +:+ "</template>".

(** Wrap render function with component options in the script block to
    validate its types.  The source file is mutated in place; the
    function gives its content after the call. *)
Definition injectVueTemplate (sourceFile : SourceFile)
    (renderBlock : list Expression) : SourceFile :=
  (* add import statement for corresponding Vue file *)
  let vueFilePath := "./" +:+ basename env (sliceEnd (fileName sourceFile) 9) in
  let componentImport :=
    ts.createImportDeclaration
      (Some (ts.createImportClause (Some (ts.createIdentifier "__Component")) None))
      (ts.createLiteral vueFilePath) in
  (* import helper type to handle Vue's private methods *)
  let helperImport :=
    ts.createImportDeclaration
      (Some (ts.createImportClause None
         (Some (ts.createNamedImports
            [ ts.createImportSpecifier None (ts.createIdentifier (renderHelperName env));
              ts.createImportSpecifier None (ts.createIdentifier (componentHelperName env));
              ts.createImportSpecifier None (ts.createIdentifier (iterationHelperName env));
              ts.createImportSpecifier None (ts.createIdentifier (listenerHelperName env)) ]))))
      (ts.createLiteral "vue-editor-bridge") in
  (* wrap render code with a function declaration *)
  let statements := map ts.createStatement renderBlock in
  let renderElement :=
    ts.createStatement
      (ts.createCall (IdentifierExpression (ts.createIdentifier (renderHelperName env)))
         [ IdentifierExpression (ts.createIdentifier "__Component");
           ts.createFunctionExpression (ts.createBlock statements) ]) in
  (* replace the original statements with wrapped code, and update the
     external module indicator to the transformed template node *)
  mkSourceFile (fileName sourceFile)
    (ts.createNodeArray [componentImport; helperImport; renderElement])
    (Some componentImport)
    (languageVersion sourceFile).

End Preprocess.

(** ** The updater: state, host engine and effects *)

(** [ts.TextChangeRange] *)
Record TextChangeRange := mkTextChangeRange {
  spanStart : nat;
  spanLength : nat;
  newLength : nat
}.

(** What [console.log] received. *)
Inductive LogEntry :=
| LogMessage (message : string)
| LogError (err : Exception).

(** The state the hooks work on.  [store] holds the tree of every live
    source file object under its identity; [scriptKindTracker] and
    [modificationTracker] are the [WeakMap] and the [WeakSet] of
    [createUpdater]; [templateSourceMap] is the table of ./serviceHost. *)
Record UpdaterState := mkState {
  store : gmap nat SourceFile;
  scriptKindTracker : gmap nat (option ScriptKind);
  modificationTracker : gset nat;
  templateSourceMap : gmap string TemplateSourceMapNodes;
  console : list LogEntry
}.

(** The part of the TypeScript module that creates documents.  A call
    hands back a document object: its identity, which may be one the
    store already knows, and its tree at that moment. *)
Record T_TypeScript := mkTypeScript {
  hostCreateLanguageServiceSourceFile :
    string -> IScriptSnapshot -> nat -> string -> bool -> option ScriptKind ->
    gmap nat SourceFile -> nat * SourceFile;
  hostUpdateLanguageServiceSourceFile :
    nat -> IScriptSnapshot -> string -> TextChangeRange -> option bool ->
    gmap nat SourceFile -> nat * SourceFile;
  hostCreateSourceFile :
    string -> string -> nat -> bool -> ScriptKind ->
    gmap nat SourceFile -> nat * SourceFile;
  printFile : SourceFile -> string
}.

(** Computations that read and write the state and may throw; what was
    written before a throw stays written. *)
Definition M (A : Type) : Type := UpdaterState -> Completion A * UpdaterState.

Definition ret {A} (a : A) : M A := fun st => (Normal a, st).

Definition throw {A} (err : Exception) : M A := fun st => (Throw err, st).

Definition bind {A B} (m : M A) (k : A -> M B) : M B :=
  fun st =>
    match m st with
    | (Normal a, st') => k a st'
    | (Throw err, st') => (Throw err, st')
    end.

Definition tryCatch {A} (body : M A) (handler : Exception -> M A) : M A :=
  fun st =>
    match body st with
    | (Normal a, st') => (Normal a, st')
    | (Throw err, st') => handler err st'
    end.

Declare Scope updater_scope.
Delimit Scope updater_scope with updater.
Notation "x <- m ;; k" := (bind m (fun x => k))
  (at level 100, m at level 99, k at level 200, right associativity) : updater_scope.
Notation "m ;; k" := (bind m (fun _ => k))
  (at level 100, k at level 200, right associativity) : updater_scope.
Local Open Scope updater_scope.

Definition liftCompletion {A} (c : Completion A) : M A :=
  match c with
  | Normal a => ret a
  | Throw err => throw err
  end.

(** Reading a property of a source file object. *)
Definition readSourceFile (sourceFile : nat) : M SourceFile :=
  fun st =>
    match store st !! sourceFile with
    | Some sf => (Normal sf, st)
    | None => (Throw "TypeError", st)
    end.

(** Mutating a source file object in place. *)
Definition mutateSourceFile (sourceFile : nat) (f : SourceFile -> SourceFile) : M unit :=
  fun st =>
    (Normal tt,
     mkState (alter f sourceFile (store st)) (scriptKindTracker st)
       (modificationTracker st) (templateSourceMap st) (console st)).

(** A call into the host engine: the document it hands back is in the
    store afterwards. *)
Definition hostCall (call : gmap nat SourceFile -> nat * SourceFile) : M nat :=
  fun st =>
    let '(sourceFile, tree) := call (store st) in
    (Normal sourceFile,
     mkState (<[sourceFile := tree]> (store st)) (scriptKindTracker st)
       (modificationTracker st) (templateSourceMap st) (console st)).

Definition scriptKindTracker_set (sourceFile : nat) (scriptKind : option ScriptKind) : M unit :=
  fun st =>
    (Normal tt,
     mkState (store st) (<[sourceFile := scriptKind]> (scriptKindTracker st))
       (modificationTracker st) (templateSourceMap st) (console st)).

(** [WeakMap.get]: [undefined] for an object that was never set. *)
Definition scriptKindTracker_get (sourceFile : nat) : M (option ScriptKind) :=
  fun st => (Normal (default None (scriptKindTracker st !! sourceFile)), st).

Definition modificationTracker_has (sourceFile : nat) : M bool :=
  fun st => (Normal (bool_decide (sourceFile ∈ modificationTracker st)), st).

Definition modificationTracker_add (sourceFile : nat) : M unit :=
  fun st =>
    (Normal tt,
     mkState (store st) (scriptKindTracker st)
       ({[sourceFile]} ∪ modificationTracker st) (templateSourceMap st) (console st)).

Definition templateSourceMap_set (key : string) (nodes : TemplateSourceMapNodes) : M unit :=
  fun st =>
    (Normal tt,
     mkState (store st) (scriptKindTracker st) (modificationTracker st)
       (<[key := nodes]> (templateSourceMap st)) (console st)).

Definition console_log (entry : LogEntry) : M unit :=
  fun st =>
    (Normal tt,
     mkState (store st) (scriptKindTracker st) (modificationTracker st)
       (templateSourceMap st) (console st ++ [entry])).

Section Updater.

Context (env : Collaborators) (tsModule : T_TypeScript).

Definition clssf := hostCreateLanguageServiceSourceFile tsModule.
Definition ulssf := hostUpdateLanguageServiceSourceFile tsModule.

Definition isTSLike (scriptKind : option ScriptKind) : bool :=
  match scriptKind with
  | Some TS | Some TSX => true
  | _ => false
  end.

Definition modifySourceFile (fileName : string) (sourceFile : nat)
    (scriptSnapshot : IScriptSnapshot) (version : string)
    (scriptKind : option ScriptKind) : M unit :=
  marked <- modificationTracker_has sourceFile ;;
  if (marked : bool) then ret tt
  else if isVue env fileName && negb (isTSLike scriptKind) then
    mutateSourceFile sourceFile modifyVueScript ;;
    modificationTracker_add sourceFile ;;
    ret tt
  else ret tt.

(** The visitor either hands back its expressions or throws. *)
Definition callTransformTemplate (program : ESLintProgram) (code : string) :
    M (list Expression) :=
  match transformTemplate env program code with
  | Transformed expressions => ret expressions
  | TransformFailed _ err => throw err
  end.

(** The transformed TS AST has synthetic nodes so language features would
    fail on them.  Use printer to print the AST as re-parse the source to
    get a valid SourceFile. *)
Definition recreateVueTempalteSourceFile (vueTemplateFileName : string)
    (sourceFile : nat) (scriptSnapshot : IScriptSnapshot) : M nat :=
  let templateCode :=
    parseVueTemplate env (snapshotGetText scriptSnapshot 0 (getLength scriptSnapshot)) in
  program <- liftCompletion (parse env templateCode) ;;
  tryCatch
    (expressions <- callTransformTemplate program templateCode ;;
     mutateSourceFile sourceFile (fun sf => injectVueTemplate env sf expressions))
    (fun err =>
       console_log (LogMessage ("Failed to transform template of " +:+ vueTemplateFileName)) ;;
       console_log (LogError err)) ;;
  printed <- readSourceFile sourceFile ;;
  let newText := printFile tsModule printed in
  newSourceFile <-
    hostCall (hostCreateSourceFile tsModule vueTemplateFileName newText
                (languageVersion printed) true JS) ;;
  original <- readSourceFile sourceFile ;;
  synthetic <- readSourceFile newSourceFile ;;
  let sourceMapNodes := generateSourceMap env original synthetic in
  templateSourceMap_set vueTemplateFileName sourceMapNodes ;;
  templateSourceMap_set (sliceEnd vueTemplateFileName (String.length ".template"))
    sourceMapNodes ;;
  ret newSourceFile.

Definition createLanguageServiceSourceFile (fileName : string)
    (scriptSnapshot : IScriptSnapshot) (scriptTarget : nat) (version : string)
    (setNodeParents : bool) (scriptKind : option ScriptKind) : M nat :=
  sourceFile <-
    hostCall (clssf fileName scriptSnapshot scriptTarget version setNodeParents scriptKind) ;;
  scriptKindTracker_set sourceFile scriptKind ;;
  if isVirtualVueTemplateFile env fileName then
    sourceFile <- recreateVueTempalteSourceFile fileName sourceFile scriptSnapshot ;;
    modificationTracker_add sourceFile ;;
    ret sourceFile
  else
    modifySourceFile fileName sourceFile scriptSnapshot version scriptKind ;;
    ret sourceFile.

Definition updateLanguageServiceSourceFile (sourceFile : nat)
    (scriptSnapshot : IScriptSnapshot) (version : string)
    (textChangeRange : TextChangeRange) (aggressiveChecks : option bool) : M nat :=
  scriptKind <- scriptKindTracker_get sourceFile ;;
  sourceFile <-
    hostCall (ulssf sourceFile scriptSnapshot version textChangeRange aggressiveChecks) ;;
  updated <- readSourceFile sourceFile ;;
  if isVirtualVueTemplateFile env (fileName updated) then
    sourceFile <-
      recreateVueTempalteSourceFile (fileName updated) sourceFile scriptSnapshot ;;
    modificationTracker_add sourceFile ;;
    ret sourceFile
  else
    modifySourceFile (fileName updated) sourceFile scriptSnapshot version scriptKind ;;
    ret sourceFile.

End Updater.

(** ** The lifecycle contract in the specification's words *)

Section Lifecycle.

Context (env : Collaborators) (tsModule : T_TypeScript).

(** The routing decision: a template-synthetic document is derived in
    full and the derived document is marked processed; any other
    document goes through the script routing, in place. *)
Definition routeDocument (identity : string) (document : nat)
    (snapshot : IScriptSnapshot) (version : string)
    (classification : option ScriptKind) : M nat :=
  if isVirtualVueTemplateFile env identity then
    derived <- recreateVueTempalteSourceFile env tsModule identity document snapshot ;;
    modificationTracker_add derived ;;
    ret derived
  else
    modifySourceFile env identity document snapshot version classification ;;
    ret document.

(** [materialize]: host parse, store the classification, route. *)
Definition materialize (identity : string) (snapshot : IScriptSnapshot)
    (target : nat) (version : string) (setNodeParents : bool)
    (classification : option ScriptKind) : M nat :=
  document <-
    hostCall (hostCreateLanguageServiceSourceFile tsModule identity snapshot target
                version setNodeParents classification) ;;
  scriptKindTracker_set document classification ;;
  routeDocument identity document snapshot version classification.

(** [reapply]: recover the stored classification, host update, route the
    updated result under its own identity. *)
Definition reapply (existingDocument : nat) (snapshot : IScriptSnapshot)
    (version : string) (changeRange : TextChangeRange)
    (aggressiveChecks : option bool) : M nat :=
  fun st =>
    let classification := default None (scriptKindTracker st !! existingDocument) in
    let '(updated, tree) :=
      hostUpdateLanguageServiceSourceFile tsModule existingDocument snapshot version
        changeRange aggressiveChecks (store st) in
    routeDocument (fileName tree) updated snapshot version classification
      (mkState (<[updated := tree]> (store st)) (scriptKindTracker st)
         (modificationTracker st) (templateSourceMap st) (console st)).

End Lifecycle.

(** ** Observations on trees *)

(** Two ranges overlap when they share a position: [pos] inclusive, [end]
    exclusive. *)
Definition rangesOverlap (a b : TextRange) : bool :=
  (Z.max (pos a) (pos b) <? Z.min (end_ a) (end_ b))%Z.

(** The statements wrapped in the function handed to the render helper, for
    a tree of the injected shape; none for any other tree. *)
Definition wrappedStatements (sourceFile : SourceFile) : list Statement :=
  match items (statements sourceFile) with
  | [_; _; ExpressionStatement _ (CallExpression _ _ args)] =>
      match items args with
      | [_; FunctionExpression _ (mkBlock _ body)] => items body
      | _ => []
      end
  | _ => []
  end.

Definition isWhitespaceOnly (s : string) : Prop :=
  Forall (fun c => isWhitespace c = true) (list_ascii_of_string s).

(** ** A small world to run the hooks in *)

Module Example.

(** A region splitter for component texts that hold a template only: the
    template document is the text itself, the script document is empty. *)
Definition regions (type text : string) : TextDocument :=
  if String.eqb type "template" then mkTextDocument "vue-html" text
  else mkTextDocument "javascript" "".

Definition brokenTemplate : string := "<template>{{ a }}{{ ! }}</template>".

(** A visitor that yields one identifier per template, nothing for the
    empty template, and gives up on [brokenTemplate] after its first
    expression. *)
Definition visitor (program : ESLintProgram) (code : string) : TransformOutcome :=
  if String.eqb code "" then Transformed []
  else if String.eqb code brokenTemplate then
    TransformFailed [IdentifierExpression (ts.createIdentifier "a")] "SyntaxError"
  else Transformed [IdentifierExpression (ts.createIdentifier program)].

Definition endsWith (suffix s : string) : bool :=
  String.eqb
    (substring (String.length s - String.length suffix) (String.length suffix) s)
    suffix.

Definition sourceMap (original synthetic : SourceFile) : TemplateSourceMapNodes :=
  zip (getTextRange <$> items (statements original))
      (getTextRange <$> items (statements synthetic)).

Definition env : Collaborators :=
  {| getSingleTypeDocument := regions;
     parse := fun code => Normal code;
     transformTemplate := visitor;
     componentHelperName := "__vlsComponentHelper";
     iterationHelperName := "__vlsIterationHelper";
     renderHelperName := "__vlsRenderHelper";
     listenerHelperName := "__vlsListenerHelper";
     generateSourceMap := sourceMap;
     isVirtualVueTemplateFile := endsWith ".vue.template";
     extname := fun name => if endsWith ".vue" name then ".vue" else "";
     basename := fun name => name |}.

(** A parser that knows one script and takes any other non-empty text for
    a single statement spanning it. *)
Definition parseText (text : string) : list Statement :=
  if String.eqb text "export default {};" then
    [ExportAssignment (mkRange 0 18) false (ObjectLiteralExpression (mkRange 14 17) [])]
  else if String.eqb text "" then []
  else [OtherStatement (mkRange 0 (Z.of_nat (String.length text))) 0].

Definition printStatement (st : Statement) : string :=
  match st with
  | ExportAssignment _ _ _ => "export default _;"
  | ImportDeclaration _ _ _ => "import _;"
  | ExpressionStatement _ _ => "_;"
  | OtherStatement _ _ => ";"
  end.

Definition freshObject (objects : gmap nat SourceFile) : nat :=
  fresh (dom objects).

(** The host: every creation is a new object; an update with an unchanged
    range hands the existing object back. *)
Definition tsModule : T_TypeScript :=
  {| hostCreateLanguageServiceSourceFile :=
       fun name snapshot target _ _ _ objects =>
         (freshObject objects,
          mkSourceFile name (ts.createNodeArray (parseText (snapshotText snapshot)))
            None target);
     hostUpdateLanguageServiceSourceFile :=
       fun existing snapshot _ range _ objects =>
         match objects !! existing with
         | Some tree =>
             if ((spanLength range =? 0) && (newLength range =? 0))%nat
             then (existing, tree)
             else (freshObject objects,
                   mkSourceFile (fileName tree)
                     (ts.createNodeArray (parseText (snapshotText snapshot)))
                     None (languageVersion tree))
         | None => (freshObject objects, mkSourceFile "" (ts.createNodeArray []) None 0%nat)
         end;
     hostCreateSourceFile :=
       fun name text target _ _ objects =>
         (freshObject objects,
          mkSourceFile name (ts.createNodeArray (parseText text)) None target);
     printFile :=
       fun tree => String.concat "" (printStatement <$> items (statements tree)) |}.

Definition emptyState : UpdaterState := mkState ∅ ∅ ∅ ∅ [].

Definition unchangedRange : TextChangeRange := mkTextChangeRange 0 0 0.

(** [export default {};] as the host parses it. *)
Definition defaultExportScript : SourceFile :=
  mkSourceFile "c.vue" (ts.createNodeArray (parseText "export default {};")) None 0%nat.

(** A state whose only object, number 0, is the host's parse of a
    snapshot under the given file name. *)
Definition parsedState (name : string) (snapshot : IScriptSnapshot) : UpdaterState :=
  mkState
    {[ 0%nat := mkSourceFile name
                  (ts.createNodeArray (parseText (snapshotText snapshot))) None 0%nat ]}
    ∅ ∅ ∅ [].

(** Component texts: a template, another one, one the visitor gives up
    on, and one that is a space, a line feed, a tab and a space. *)
Definition helloSnapshot : IScriptSnapshot := mkSnapshot "          <p>hi</p>".
Definition byeSnapshot : IScriptSnapshot := mkSnapshot "          <p>bye</p>".
Definition brokenSnapshot : IScriptSnapshot := mkSnapshot "          {{ a }}{{ ! }}".
Definition blankSnapshot : IScriptSnapshot :=
  mkSnapshot (String " " (String "010" (String "009" " "))).

(** The same collaborators with a visitor that throws on every
    template. *)
Definition rejectingEnv : Collaborators :=
  {| getSingleTypeDocument := regions;
     parse := fun code => Normal code;
     transformTemplate := fun _ _ => TransformFailed [] "TransformError";
     componentHelperName := "__vlsComponentHelper";
     iterationHelperName := "__vlsIterationHelper";
     renderHelperName := "__vlsRenderHelper";
     listenerHelperName := "__vlsListenerHelper";
     generateSourceMap := sourceMap;
     isVirtualVueTemplateFile := endsWith ".vue.template";
     extname := fun name => if endsWith ".vue" name then ".vue" else "";
     basename := fun name => name |}.

(** The state after creating the script document [c.vue]. *)
Definition scriptCreated : UpdaterState :=
  (createLanguageServiceSourceFile env tsModule "c.vue"
     (mkSnapshot "export default {};") 0 "1" true None emptyState).2.

(** The same collaborators with a markup parser that rejects
    [brokenTemplate]. *)
Definition strictEnv : Collaborators :=
  {| getSingleTypeDocument := regions;
     parse := fun code =>
       if String.eqb code brokenTemplate then Throw "ParseError" else Normal code;
     transformTemplate := visitor;
     componentHelperName := "__vlsComponentHelper";
     iterationHelperName := "__vlsIterationHelper";
     renderHelperName := "__vlsRenderHelper";
     listenerHelperName := "__vlsListenerHelper";
     generateSourceMap := sourceMap;
     isVirtualVueTemplateFile := endsWith ".vue.template";
     extname := fun name => if endsWith ".vue" name then ".vue" else "";
     basename := fun name => name |}.

(** A change of one code unit. *)
Definition changedRange : TextChangeRange := mkTextChangeRange 0 1 1.

(** A script of three statements: an opaque one and two export assignments
    of object literals. *)
Definition twoExportScript : SourceFile :=
  mkSourceFile "c.vue"
    (ts.createNodeArray
       [ OtherStatement (mkRange 0 10) 0;
         ExportAssignment (mkRange 10 30) false
           (ObjectLiteralExpression (mkRange 24 29) []);
         ExportAssignment (mkRange 30 50) false
           (ObjectLiteralExpression (mkRange 44 49) []) ])
    None 0%nat.

(** A script with one statement, [export default someIdentifier;]. *)
Definition plainScript : SourceFile :=
  mkSourceFile "c.vue"
    (ts.createNodeArray
       [ExportAssignment (mkRange 0 22) false
          (IdentifierExpression (mkIdentifier (mkRange 14 21) "options"))])
    None 0%nat.

End Example.

(** * Properties *)

(** ** The script rewrite *)

Section ScriptRewrite.

Implicit Types (sourceFile : SourceFile) (st : Statement).

Lemma isExportDefaultObject_inv st :
  isExportDefaultObject st = true ->
  exists r eq objRange props,
    st = ExportAssignment r eq (ObjectLiteralExpression objRange props).
Proof.
  destruct st as [r eq e| | |]; try discriminate.
  destruct e; try discriminate. eauto.
Qed.

(** What [find] settles: either no statement qualifies, or the first one
    that does sits at some index [i]. *)
Lemma find_export_cases sourceFile :
  (list_find (fun st => isExportDefaultObject st = true)
     (items (statements sourceFile)) = None /\
   Forall (fun st => isExportDefaultObject st = false)
     (items (statements sourceFile)))
  \/
  (exists i r eq objRange props,
     list_find (fun st => isExportDefaultObject st = true)
       (items (statements sourceFile))
     = Some (i, ExportAssignment r eq (ObjectLiteralExpression objRange props)) /\
     items (statements sourceFile) !! i
     = Some (ExportAssignment r eq (ObjectLiteralExpression objRange props)) /\
     forall j st, items (statements sourceFile) !! j = Some st -> (j < i)%nat ->
                  isExportDefaultObject st = false).
Proof.
  destruct (list_find _ _) as [[i st]|] eqn:Hfind.
  - right. apply list_find_Some in Hfind as (Hi & Hst & Hmin).
    destruct (isExportDefaultObject_inv _ Hst) as (r & eq & objRange & props & ->).
    exists i, r, eq, objRange, props. repeat split; [done|].
    intros j st' Hj Hlt. specialize (Hmin j st' Hj Hlt).
    by destruct (isExportDefaultObject st').
  - left. split; [done|]. apply list_find_None in Hfind.
    eapply Forall_impl; [exact Hfind|]. intros st' Hst'; simpl in Hst'.
    by destruct (isExportDefaultObject st').
Qed.

(** The tree after the rewrite, when the first qualifying statement is at
    index [i]. *)
Lemma modifyVueScript_found sourceFile i r eq objRange props :
  list_find (fun st => isExportDefaultObject st = true)
    (items (statements sourceFile))
  = Some (i, ExportAssignment r eq (ObjectLiteralExpression objRange props)) ->
  items (statements (modifyVueScript sourceFile))
  = ImportDeclaration (mkRange 0 0)
      (Some (mkImportClause (mkRange 0 0)
               (Some (mkIdentifier synthesizedRange "__vueEditorBridge")) None))
      (StringLiteral (mkRange 0 0) "vue-editor-bridge")
    :: <[i := ExportAssignment r eq
                (CallExpression objRange
                   (IdentifierExpression
                      (mkIdentifier (mkRange (pos objRange) (pos objRange + 1))
                         "__vueEditorBridge"))
                   (mkNodeArray objRange [ObjectLiteralExpression objRange props]))]>
         (items (statements sourceFile)).
Proof. intros Hfind. unfold modifyVueScript. rewrite Hfind. reflexivity. Qed.

Lemma zero_width_no_overlap (r : TextRange) :
  rangesOverlap (mkRange 0 0) r = false.
Proof. unfold rangesOverlap; simpl. apply Z.ltb_ge. lia. Qed.

(** C3: for every script with a top-level default export of an object
    literal, the rewrite puts in its place (one slot further, behind the
    inserted import) the same export whose value is a call: the call node
    and its argument list carry exactly the range of the object literal,
    the only argument is the object literal with its range unchanged, and
    the call target is the bridge identifier ranged from the literal's
    start to start + 1. *)
Theorem modifyVueScript_call_ranges sourceFile :
  (exists st, st ∈ items (statements sourceFile) /\ isExportDefaultObject st = true) ->
  exists i r eq objRange props,
    items (statements sourceFile) !! i
    = Some (ExportAssignment r eq (ObjectLiteralExpression objRange props)) /\
    (forall j st, items (statements sourceFile) !! j = Some st -> (j < i)%nat ->
                  isExportDefaultObject st = false) /\
    exists call target args,
      items (statements (modifyVueScript sourceFile)) !! S i
      = Some (ExportAssignment r eq call) /\
      call = CallExpression objRange (IdentifierExpression target) args /\
      getTextRange call = objRange /\
      getTextRange args = objRange /\
      items args = [ObjectLiteralExpression objRange props] /\
      escapedText target = "__vueEditorBridge" /\
      getTextRange target = mkRange (pos objRange) (pos objRange + 1).
Proof.
  intros (st & Hin & Hst).
  destruct (find_export_cases sourceFile)
    as [[_ Hnone]|(i & r & eq & objRange & props & Hfind & Hi & Hmin)].
  - rewrite Forall_forall in Hnone. rewrite (Hnone st Hin) in Hst. discriminate.
  - exists i, r, eq, objRange, props. split; [done|]. split; [done|].
    eexists _, _, _. split.
    + rewrite (modifyVueScript_found _ _ _ _ _ _ Hfind). simpl.
      apply list_lookup_insert_eq. by eapply lookup_lt_Some.
    + repeat split.
Qed.

(** C9: when the rewrite applies, the first statement of the document is
    the inserted import of the bridging identifier, ranged (0, 0); the
    statements that were there follow it with their ranges unchanged, and
    the import's range overlaps none of them. *)
Theorem modifyVueScript_import_first sourceFile :
  (exists st, st ∈ items (statements sourceFile) /\ isExportDefaultObject st = true) ->
  exists vueImport rest,
    items (statements (modifyVueScript sourceFile)) = vueImport :: rest /\
    vueImport
    = ImportDeclaration (mkRange 0 0)
        (Some (mkImportClause (mkRange 0 0)
                 (Some (mkIdentifier synthesizedRange "__vueEditorBridge")) None))
        (StringLiteral (mkRange 0 0) "vue-editor-bridge") /\
    getTextRange vueImport = mkRange 0 0 /\
    getTextRange <$> rest = getTextRange <$> items (statements sourceFile) /\
    (forall st, st ∈ items (statements sourceFile) ->
                rangesOverlap (getTextRange vueImport) (getTextRange st) = false) /\
    (forall st, st ∈ rest ->
                rangesOverlap (getTextRange vueImport) (getTextRange st) = false).
Proof.
  intros (st & Hin & Hst).
  destruct (find_export_cases sourceFile)
    as [[_ Hnone]|(i & r & eq & objRange & props & Hfind & Hi & Hmin)].
  - rewrite Forall_forall in Hnone. rewrite (Hnone st Hin) in Hst. discriminate.
  - eexists _, _. split; [exact (modifyVueScript_found _ _ _ _ _ _ Hfind)|].
    split; [done|]. split; [done|]. split; [|split].
    + rewrite list_fmap_insert. apply list_insert_id.
      by rewrite list_lookup_fmap, Hi.
    + intros; apply zero_width_no_overlap.
    + intros; apply zero_width_no_overlap.
Qed.

(** C8: a script document without a top-level export assignment of an
    object literal comes back from the rewrite as it went in, statement
    list and every node in it; the rewrite has no failing outcome. *)
Theorem modifyVueScript_without_export sourceFile :
  (forall st, st ∈ items (statements sourceFile) -> isExportDefaultObject st = false) ->
  modifyVueScript sourceFile = sourceFile.
Proof.
  intros Hnone.
  destruct (find_export_cases sourceFile)
    as [[Hfind _]|(i & r & eq & objRange & props & _ & Hi & _)].
  - unfold modifyVueScript. by rewrite Hfind.
  - apply list_elem_of_lookup_2 in Hi. apply Hnone in Hi. discriminate.
Qed.

End ScriptRewrite.

Lemma modifyVueScript_call_ranges_witness :
  exists i r eq objRange props,
    items (statements Example.defaultExportScript) !! i
    = Some (ExportAssignment r eq (ObjectLiteralExpression objRange props)) /\
    (forall j st, items (statements Example.defaultExportScript) !! j = Some st ->
                  (j < i)%nat -> isExportDefaultObject st = false) /\
    exists call target args,
      items (statements (modifyVueScript Example.defaultExportScript)) !! S i
      = Some (ExportAssignment r eq call) /\
      call = CallExpression objRange (IdentifierExpression target) args /\
      getTextRange call = objRange /\
      getTextRange args = objRange /\
      items args = [ObjectLiteralExpression objRange props] /\
      escapedText target = "__vueEditorBridge" /\
      getTextRange target = mkRange (pos objRange) (pos objRange + 1).
Proof.
  apply (modifyVueScript_call_ranges Example.defaultExportScript).
  eexists. split; [apply list_elem_of_here | reflexivity].
Defined.

Lemma modifyVueScript_import_first_witness :
  exists vueImport rest,
    items (statements (modifyVueScript Example.defaultExportScript)) = vueImport :: rest /\
    vueImport
    = ImportDeclaration (mkRange 0 0)
        (Some (mkImportClause (mkRange 0 0)
                 (Some (mkIdentifier synthesizedRange "__vueEditorBridge")) None))
        (StringLiteral (mkRange 0 0) "vue-editor-bridge") /\
    getTextRange vueImport = mkRange 0 0 /\
    getTextRange <$> rest = getTextRange <$> items (statements Example.defaultExportScript) /\
    (forall st, st ∈ items (statements Example.defaultExportScript) ->
                rangesOverlap (getTextRange vueImport) (getTextRange st) = false) /\
    (forall st, st ∈ rest ->
                rangesOverlap (getTextRange vueImport) (getTextRange st) = false).
Proof.
  apply (modifyVueScript_import_first Example.defaultExportScript).
  eexists. split; [apply list_elem_of_here | reflexivity].
Defined.

Lemma modifyVueScript_without_export_witness :
  modifyVueScript Example.plainScript = Example.plainScript.
Proof.
  apply (modifyVueScript_without_export Example.plainScript).
  intros st Hst. apply list_elem_of_singleton in Hst. subst st. reflexivity.
Defined.

(** ** Strings *)

Lemma substring_whole (s : string) : substring 0 (String.length s) s = s.
Proof. induction s as [|c s IH]; simpl; [done|]. by rewrite IH. Qed.

Lemma substring_prefix (base suffix : string) :
  substring 0 (String.length base) (base +:+ suffix) = base.
Proof.
  induction base as [|c base IH]; simpl.
  - by destruct suffix.
  - by rewrite IH.
Qed.

Lemma string_length_app (a b : string) :
  String.length (a +:+ b) = (String.length a + String.length b)%nat.
Proof. induction a as [|c a IH]; simpl; [done|]. by rewrite IH. Qed.

(** Cutting a suffix off the end gives back what was in front of it. *)
Lemma sliceEnd_suffix (base suffix : string) :
  sliceEnd (base +:+ suffix) (String.length suffix) = base.
Proof.
  unfold sliceEnd. rewrite string_length_app.
  replace (String.length base + String.length suffix - String.length suffix)%nat
    with (String.length base) by lia.
  apply substring_prefix.
Qed.

Lemma snapshot_full_text (snapshot : IScriptSnapshot) :
  snapshotGetText snapshot 0 (getLength snapshot) = snapshotText snapshot.
Proof.
  unfold snapshotGetText, getLength. rewrite Nat.sub_0_r. apply substring_whole.
Qed.

Lemma removeWhitespace_whitespace_only (s : string) :
  isWhitespaceOnly s -> removeWhitespace s = "".
Proof.
  unfold isWhitespaceOnly. induction s as [|c s IH]; simpl; [done|].
  intros H. apply Forall_cons in H as [-> H]. auto.
Qed.

(** ** The extraction helpers *)

Lemma parseVueScript_region_text (env : Collaborators) (text : string) :
  getText (getSingleTypeDocument env "script" text) <> "" ->
  parseVueScript env text = getText (getSingleTypeDocument env "script" text).
Proof.
  intros H. unfold parseVueScript, orElse.
  apply String.eqb_neq in H. by rewrite H.
Qed.

(** C10: when the script region of a component document yields the empty
    text, [parseVueScript] returns the fallback text [export default {};]
    and not the empty string. *)
Theorem parseVueScript_fallback (env : Collaborators) (text : string) :
  getText (getSingleTypeDocument env "script" text) = "" ->
  parseVueScript env text = "export default {};".
Proof. intros H. unfold parseVueScript, orElse. by rewrite H. Qed.

Lemma parseVueScript_fallback_witness :
  parseVueScript Example.env "<template><p>hi</p></template>" = "export default {};".
Proof.
  apply (parseVueScript_fallback Example.env "<template><p>hi</p></template>").
  reflexivity.
Defined.

Lemma parseVueTemplate_whitespace_only (env : Collaborators) (text : string) :
  isWhitespaceOnly (getText (getSingleTypeDocument env "template" text)) ->
  parseVueTemplate env text = "".
Proof.
  intros H. unfold parseVueTemplate.
  destruct (negb _); [done|].
  by rewrite (removeWhitespace_whitespace_only _ H).
Qed.

(** ** The template injection *)

(** C4: whatever the document held and whatever the expression sequence,
    after the injection the top-level statement list is exactly the
    component import, the helper import and the render-helper call
    statement, in that order, and the external-module indicator is the
    component import.  The render-helper call wraps one statement per
    expression, in order. *)
Theorem injectVueTemplate_statements (env : Collaborators)
    (sourceFile : SourceFile) (renderBlock : list Expression) :
  let synthesizedIdentifier := mkIdentifier synthesizedRange in
  let componentImport :=
    ImportDeclaration synthesizedRange
      (Some (mkImportClause synthesizedRange
               (Some (synthesizedIdentifier "__Component")) None))
      (StringLiteral synthesizedRange
         ("./" +:+ basename env (sliceEnd (fileName sourceFile) 9))) in
  let specifier name :=
    mkImportSpecifier synthesizedRange None (synthesizedIdentifier name) in
  let helperImport :=
    ImportDeclaration synthesizedRange
      (Some (mkImportClause synthesizedRange None
               (Some (mkNamedImports synthesizedRange
                        (mkNodeArray synthesizedRange
                           [ specifier (renderHelperName env);
                             specifier (componentHelperName env);
                             specifier (iterationHelperName env);
                             specifier (listenerHelperName env) ])))))
      (StringLiteral synthesizedRange "vue-editor-bridge") in
  let renderElement :=
    ExpressionStatement synthesizedRange
      (CallExpression synthesizedRange
         (IdentifierExpression (synthesizedIdentifier (renderHelperName env)))
         (mkNodeArray synthesizedRange
            [ IdentifierExpression (synthesizedIdentifier "__Component");
              FunctionExpression synthesizedRange
                (mkBlock synthesizedRange
                   (mkNodeArray synthesizedRange
                      (ExpressionStatement synthesizedRange <$> renderBlock))) ])) in
  items (statements (injectVueTemplate env sourceFile renderBlock))
  = [componentImport; helperImport; renderElement] /\
  externalModuleIndicator (injectVueTemplate env sourceFile renderBlock)
  = Some componentImport /\
  wrappedStatements (injectVueTemplate env sourceFile renderBlock)
  = ExpressionStatement synthesizedRange <$> renderBlock /\
  fileName (injectVueTemplate env sourceFile renderBlock) = fileName sourceFile.
Proof. repeat split. Qed.

Lemma injectVueTemplate_wrapped_length (env : Collaborators)
    (sourceFile : SourceFile) (renderBlock : list Expression) :
  length (items (statements (injectVueTemplate env sourceFile renderBlock))) = 3%nat /\
  length (wrappedStatements (injectVueTemplate env sourceFile renderBlock))
  = length renderBlock.
Proof. split; [done|]. simpl. apply length_map. Qed.

(** ** The derivation of a template-synthetic document *)

Section Derivation.

Context (env : Collaborators) (tsModule : T_TypeScript).

(** The whole run of the derivation on a live source file object, once
    the markup parser has returned. *)
Lemma recreateVueTempalteSourceFile_run (name : string) (sourceFile : nat)
    (snapshot : IScriptSnapshot) (st : UpdaterState) (sf : SourceFile)
    (program : ESLintProgram) :
  store st !! sourceFile = Some sf ->
  parse env (parseVueTemplate env (snapshotText snapshot)) = Normal program ->
  recreateVueTempalteSourceFile env tsModule name sourceFile snapshot st
  = let code := parseVueTemplate env (snapshotText snapshot) in
    let '(printed, objects, logged) :=
      match transformTemplate env program code with
      | Transformed expressions =>
          (injectVueTemplate env sf expressions,
           alter (fun sf => injectVueTemplate env sf expressions) sourceFile (store st),
           console st)
      | TransformFailed _ err =>
          (sf, store st,
           (console st ++ [LogMessage ("Failed to transform template of " +:+ name);
                           LogError err])%list)
      end in
    let '(derived, tree) :=
      hostCreateSourceFile tsModule name (printFile tsModule printed)
        (languageVersion printed) true JS objects in
    let original := if decide (derived = sourceFile) then tree else printed in
    let sourceMapNodes := generateSourceMap env original tree in
    (Normal derived,
     mkState (<[derived := tree]> objects) (scriptKindTracker st)
       (modificationTracker st)
       (<[sliceEnd name 9 := sourceMapNodes]>
          (<[name := sourceMapNodes]> (templateSourceMap st)))
       logged).
Proof.
  intros Hlive Hparse.
  unfold recreateVueTempalteSourceFile. rewrite snapshot_full_text.
  unfold bind at 1. rewrite Hparse. simpl.
  unfold bind at 1. unfold tryCatch, bind at 1, callTransformTemplate.
  destruct (transformTemplate env program _) as [expressions|produced err]; simpl.
  - unfold bind, readSourceFile, hostCall; simpl.
    rewrite lookup_alter_eq, Hlive; simpl.
    destruct (hostCreateSourceFile _ _ _ _ _ _ _) as [derived tree]; simpl.
    rewrite lookup_insert. case_decide as Hd; simpl.
    + subst. by rewrite lookup_insert_eq.
    + rewrite lookup_alter_eq, Hlive. simpl. by rewrite lookup_insert_eq.
  - unfold bind, readSourceFile, hostCall, console_log; simpl.
    rewrite Hlive; simpl.
    destruct (hostCreateSourceFile _ _ _ _ _ _ _) as [derived tree]; simpl.
    rewrite lookup_insert. case_decide as Hd; simpl.
    + subst. rewrite lookup_insert_eq. simpl. by rewrite <- app_assoc.
    + rewrite Hlive. simpl. rewrite lookup_insert_eq. simpl.
      by rewrite <- app_assoc.
Qed.

Lemma recreateVueTempalteSourceFile_parse_failure (name : string)
    (sourceFile : nat) (snapshot : IScriptSnapshot) (st : UpdaterState)
    (err : Exception) :
  parse env (parseVueTemplate env (snapshotText snapshot)) = Throw err ->
  recreateVueTempalteSourceFile env tsModule name sourceFile snapshot st
  = (Throw err, st).
Proof.
  intros Hparse. unfold recreateVueTempalteSourceFile.
  rewrite snapshot_full_text. unfold bind at 1. by rewrite Hparse.
Qed.

(** C1, amended: when the transform visitor throws, whatever it had
    produced by then, the derivation returns normally.  It logs the
    failure with the document identity, then the error; it skips the
    injection, so the text handed to the parser is the print of the tree
    as the host engine left it, and the returned document is what the
    host parses from that text.  The store gains that document and
    nothing else changes. *)
Theorem transform_failure_is_contained (name : string) (sourceFile : nat)
    (snapshot : IScriptSnapshot) (st : UpdaterState) (sf : SourceFile)
    (program : ESLintProgram) (produced : list Expression) (err : Exception) :
  store st !! sourceFile = Some sf ->
  parse env (parseVueTemplate env (snapshotText snapshot)) = Normal program ->
  transformTemplate env program (parseVueTemplate env (snapshotText snapshot))
  = TransformFailed produced err ->
  exists derived tree st',
    recreateVueTempalteSourceFile env tsModule name sourceFile snapshot st
    = (Normal derived, st') /\
    hostCreateSourceFile tsModule name (printFile tsModule sf)
      (languageVersion sf) true JS (store st) = (derived, tree) /\
    store st' = <[derived := tree]> (store st) /\
    console st'
    = (console st ++ [LogMessage ("Failed to transform template of " +:+ name);
                      LogError err])%list /\
    scriptKindTracker st' = scriptKindTracker st /\
    modificationTracker st' = modificationTracker st.
Proof.
  intros Hlive Hparse Hfailed.
  rewrite (recreateVueTempalteSourceFile_run _ _ _ _ _ _ Hlive Hparse).
  cbv zeta. rewrite Hfailed.
  destruct (hostCreateSourceFile _ _ _ _ _ _ _) as [derived tree] eqn:Hhost.
  eexists derived, tree, _. split; [reflexivity|]. by repeat split.
Qed.

Local Ltac table_entries :=
  split; [by rewrite lookup_insert_eq|];
  split; [rewrite lookup_insert; case_decide; [done|by rewrite lookup_insert_eq]|];
  split; [by rewrite lookup_insert_eq|];
  split; [intros key Hname Hslice; by rewrite !lookup_insert_ne|];
  intros base ->; apply (sliceEnd_suffix base ".template").

(** C5: every derivation of a template-synthetic document that the
    markup parser lets through returns with the position-map table
    holding one and the same map under the virtual-document identity and
    under that identity without its last nine code units, which is the
    identity with the suffix [.template] stripped.  The map is the one
    built from the two trees of this derivation, whatever the table held
    under these keys before; every other key keeps its entry. *)
Theorem position_maps_under_both_keys (name : string) (sourceFile : nat)
    (snapshot : IScriptSnapshot) (st : UpdaterState) (sf : SourceFile)
    (program : ESLintProgram) :
  store st !! sourceFile = Some sf ->
  parse env (parseVueTemplate env (snapshotText snapshot)) = Normal program ->
  exists derived st' original synthetic,
    recreateVueTempalteSourceFile env tsModule name sourceFile snapshot st
    = (Normal derived, st') /\
    store st' !! sourceFile = Some original /\
    store st' !! derived = Some synthetic /\
    templateSourceMap st' !! name
    = Some (generateSourceMap env original synthetic) /\
    templateSourceMap st' !! sliceEnd name 9
    = Some (generateSourceMap env original synthetic) /\
    (forall key, key <> name -> key <> sliceEnd name 9 ->
                 templateSourceMap st' !! key = templateSourceMap st !! key) /\
    (forall base, name = base +:+ ".template" -> sliceEnd name 9 = base).
Proof.
  intros Hlive Hparse.
  rewrite (recreateVueTempalteSourceFile_run _ _ _ _ _ _ Hlive Hparse).
  cbv zeta.
  destruct (transformTemplate env program _) as [expressions|produced err];
    destruct (hostCreateSourceFile _ _ _ _ _ _ _) as [derived tree].
  - exists derived. eexists. exists
      (if decide (derived = sourceFile) then tree
       else injectVueTemplate env sf expressions), tree.
    split; [reflexivity|]. simpl. split.
    { rewrite lookup_insert. case_decide; [done|].
      by rewrite lookup_alter_eq, Hlive. }
    table_entries.
  - exists derived. eexists.
    exists (if decide (derived = sourceFile) then tree else sf), tree.
    split; [reflexivity|]. simpl. split.
    { rewrite lookup_insert. by case_decide. }
    table_entries.
Qed.

(** C7, amended: for a component whose template section is
    whitespace-only the extracted template text is the empty string.  The
    derivation goes on as for any other template: the empty text is
    parsed, the transform visitor is called on the result, and the tree
    that is printed holds the three injected statements, the last one
    wrapping what the visitor returned. *)
Theorem whitespace_only_template_is_injected (name : string) (sourceFile : nat)
    (snapshot : IScriptSnapshot) (st : UpdaterState) (sf : SourceFile)
    (program : ESLintProgram) (expressions : list Expression) :
  isWhitespaceOnly
    (getText (getSingleTypeDocument env "template" (snapshotText snapshot))) ->
  store st !! sourceFile = Some sf ->
  parse env "" = Normal program ->
  transformTemplate env program "" = Transformed expressions ->
  parseVueTemplate env (snapshotText snapshot) = "" /\
  exists derived tree st',
    recreateVueTempalteSourceFile env tsModule name sourceFile snapshot st
    = (Normal derived, st') /\
    hostCreateSourceFile tsModule name
      (printFile tsModule (injectVueTemplate env sf expressions))
      (languageVersion sf) true JS
      (alter (fun sf => injectVueTemplate env sf expressions) sourceFile (store st))
    = (derived, tree) /\
    store st'
    = <[derived := tree]>
        (alter (fun sf => injectVueTemplate env sf expressions) sourceFile (store st)) /\
    length (items (statements (injectVueTemplate env sf expressions))) = 3%nat /\
    wrappedStatements (injectVueTemplate env sf expressions)
    = ExpressionStatement synthesizedRange <$> expressions.
Proof.
  intros Hblank Hlive Hparse Htransform.
  pose proof (parseVueTemplate_whitespace_only env _ Hblank) as Hcode.
  split; [done|].
  rewrite <- Hcode in Hparse, Htransform.
  rewrite (recreateVueTempalteSourceFile_run _ _ _ _ _ _ Hlive Hparse).
  cbv zeta. rewrite Htransform.
  change (languageVersion (injectVueTemplate env sf expressions))
    with (languageVersion sf).
  destruct (hostCreateSourceFile _ _ _ _ _ _ _) as [derived tree] eqn:Hhost.
  eexists derived, tree, _. split; [reflexivity|]. by repeat split.
Qed.

End Derivation.

(** ** The lifecycle hooks *)

Section Hooks.

Context (env : Collaborators) (tsModule : T_TypeScript).

Local Ltac run_all :=
  unfold recreateVueTempalteSourceFile, modifySourceFile, bind, tryCatch,
    liftCompletion, callTransformTemplate, readSourceFile, mutateSourceFile,
    hostCall, templateSourceMap_set, console_log, modificationTracker_has,
    modificationTracker_add, scriptKindTracker_set, scriptKindTracker_get,
    ret, throw;
  repeat (case_match; simplify_eq/=); try done.

(** Neither the derivation nor the script routing writes the
    classification table. *)
Lemma recreateVueTempalteSourceFile_scriptKindTracker (name : string)
    (sourceFile : nat) (snapshot : IScriptSnapshot) (st : UpdaterState) :
  scriptKindTracker
    (recreateVueTempalteSourceFile env tsModule name sourceFile snapshot st).2
  = scriptKindTracker st.
Proof. run_all. Qed.

Lemma modifySourceFile_scriptKindTracker (name : string) (sourceFile : nat)
    (snapshot : IScriptSnapshot) (version : string)
    (scriptKind : option ScriptKind) (st : UpdaterState) :
  scriptKindTracker
    (modifySourceFile env name sourceFile snapshot version scriptKind st).2
  = scriptKindTracker st.
Proof. run_all. Qed.

Lemma routeDocument_scriptKindTracker (identity : string) (document : nat)
    (snapshot : IScriptSnapshot) (version : string)
    (classification : option ScriptKind) (st : UpdaterState) :
  scriptKindTracker
    (routeDocument env tsModule identity document snapshot version classification st).2
  = scriptKindTracker st.
Proof.
  unfold routeDocument. destruct (isVirtualVueTemplateFile env identity).
  - unfold bind at 1.
    pose proof (recreateVueTempalteSourceFile_scriptKindTracker
                  identity document snapshot st) as H.
    destruct (recreateVueTempalteSourceFile _ _ _ _ _ _) as [[derived|err] st'];
      simpl in *; [|done].
    by unfold bind, modificationTracker_add, ret.
  - unfold bind at 1.
    pose proof (modifySourceFile_scriptKindTracker
                  identity document snapshot version classification st) as H.
    by destruct (modifySourceFile _ _ _ _ _ _ _) as [[[]|err] st'].
Qed.

(** The script routing on a marked object does nothing at all. *)
Lemma modifySourceFile_marked (name : string) (sourceFile : nat)
    (snapshot : IScriptSnapshot) (version : string)
    (scriptKind : option ScriptKind) (st : UpdaterState) :
  sourceFile ∈ modificationTracker st ->
  modifySourceFile env name sourceFile snapshot version scriptKind st
  = (Normal tt, st).
Proof.
  intros Hmarked. unfold modifySourceFile, bind, modificationTracker_has.
  by rewrite bool_decide_eq_true_2.
Qed.

(** The script routing marks what it rewrites. *)
Lemma modifySourceFile_unmarked (name : string) (sourceFile : nat)
    (snapshot : IScriptSnapshot) (version : string)
    (scriptKind : option ScriptKind) (st : UpdaterState) :
  sourceFile ∉ modificationTracker st ->
  modifySourceFile env name sourceFile snapshot version scriptKind st
  = if isVue env name && negb (isTSLike scriptKind) then
      (Normal tt,
       mkState (alter modifyVueScript sourceFile (store st)) (scriptKindTracker st)
         ({[sourceFile]} ∪ modificationTracker st) (templateSourceMap st) (console st))
    else (Normal tt, st).
Proof.
  intros Hunmarked. unfold modifySourceFile, bind, modificationTracker_has.
  rewrite bool_decide_eq_false_2 by done. by destruct (_ && _).
Qed.

(** X18: run twice on one object with the same file name and
    classification, the script routing ends in the state of the first run:
    what the first run rewrote it marked, and what it left alone the
    second leaves alone. *)
Lemma modifySourceFile_twice (name : string) (sourceFile : nat)
    (snapshot snapshot' : IScriptSnapshot) (version version' : string)
    (scriptKind : option ScriptKind) (st : UpdaterState) :
  modifySourceFile env name sourceFile snapshot' version' scriptKind
    (modifySourceFile env name sourceFile snapshot version scriptKind st).2
  = (Normal tt,
     (modifySourceFile env name sourceFile snapshot version scriptKind st).2).
Proof.
  destruct (decide (sourceFile ∈ modificationTracker st)) as [Hm|Hm].
  - rewrite (modifySourceFile_marked _ _ snapshot version _ _ Hm). simpl.
    by apply modifySourceFile_marked.
  - rewrite (modifySourceFile_unmarked _ _ snapshot version _ _ Hm).
    destruct (_ && _) eqn:Hroute; simpl.
    + apply modifySourceFile_marked. simpl. set_solver.
    + rewrite (modifySourceFile_unmarked _ _ _ _ _ _ Hm). by rewrite Hroute.
Qed.

(** C2, amended: a document object that carries the processed-mark is
    left alone by the script path.  The script routing returns at once;
    a create call for a file that is not template-synthetic, and an
    update call whose updated document is not template-synthetic, hand
    back the marked object with its tree exactly as the host engine
    returned it, and write nothing but the host's document and, on
    create, the classification. *)
Theorem processed_mark_guards_script_path (document : nat) (st : UpdaterState) :
  document ∈ modificationTracker st ->
  (forall identity snapshot version classification,
     modifySourceFile env identity document snapshot version classification st
     = (Normal tt, st)) /\
  (forall identity snapshot target version setNodeParents classification tree,
     isVirtualVueTemplateFile env identity = false ->
     hostCreateLanguageServiceSourceFile tsModule identity snapshot target version
       setNodeParents classification (store st) = (document, tree) ->
     createLanguageServiceSourceFile env tsModule identity snapshot target version
       setNodeParents classification st
     = (Normal document,
        mkState (<[document := tree]> (store st))
          (<[document := classification]> (scriptKindTracker st))
          (modificationTracker st) (templateSourceMap st) (console st))) /\
  (forall existing snapshot version changeRange aggressiveChecks tree,
     hostUpdateLanguageServiceSourceFile tsModule existing snapshot version
       changeRange aggressiveChecks (store st) = (document, tree) ->
     isVirtualVueTemplateFile env (fileName tree) = false ->
     updateLanguageServiceSourceFile env tsModule existing snapshot version
       changeRange aggressiveChecks st
     = (Normal document,
        mkState (<[document := tree]> (store st)) (scriptKindTracker st)
          (modificationTracker st) (templateSourceMap st) (console st))).
Proof.
  intros Hmarked. split; [|split].
  - intros. by apply modifySourceFile_marked.
  - intros identity snapshot target version setNodeParents classification tree
      Hscript Hhost.
    unfold createLanguageServiceSourceFile, clssf.
    unfold bind at 1. unfold hostCall. rewrite Hhost.
    unfold bind at 1. unfold scriptKindTracker_set at 1. cbv beta iota.
    rewrite Hscript. unfold bind at 1.
    by rewrite modifySourceFile_marked.
  - intros existing snapshot version changeRange aggressiveChecks tree
      Hhost Hscript.
    unfold updateLanguageServiceSourceFile, ulssf.
    unfold bind at 1. unfold scriptKindTracker_get at 1. cbv beta iota.
    unfold bind at 1. unfold hostCall. rewrite Hhost.
    unfold bind at 1. unfold readSourceFile at 1. cbv beta iota. simpl.
    rewrite lookup_insert_eq. rewrite Hscript. unfold bind at 1.
    by rewrite modifySourceFile_marked.
Qed.

Lemma update_is_reapply existing snapshot version changeRange aggressiveChecks st :
  updateLanguageServiceSourceFile env tsModule existing snapshot version
    changeRange aggressiveChecks st
  = reapply env tsModule existing snapshot version changeRange aggressiveChecks st.
Proof.
  unfold updateLanguageServiceSourceFile, reapply, ulssf, routeDocument.
  unfold bind at 1. unfold scriptKindTracker_get at 1. cbv beta iota.
  unfold bind at 1. unfold hostCall.
  destruct (hostUpdateLanguageServiceSourceFile _ _ _ _ _ _ _) as [updated tree].
  unfold bind at 1. unfold readSourceFile at 1. cbv beta iota. simpl.
  by rewrite lookup_insert_eq.
Qed.

Lemma create_is_materialize identity snapshot target version setNodeParents
    classification st :
  createLanguageServiceSourceFile env tsModule identity snapshot target version
    setNodeParents classification st
  = materialize env tsModule identity snapshot target version setNodeParents
      classification st.
Proof. reflexivity. Qed.

(** After creation the classification table holds the classification
    under the object the host created, and a file that is not
    template-synthetic gets that object back. *)
Lemma creation_stores_classification identity snapshot target version
    setNodeParents classification st :
  let created :=
    (hostCreateLanguageServiceSourceFile tsModule identity snapshot target version
       setNodeParents classification (store st)).1 in
  let result :=
    createLanguageServiceSourceFile env tsModule identity snapshot target version
      setNodeParents classification st in
  scriptKindTracker_get created result.2 = (Normal classification, result.2) /\
  (isVirtualVueTemplateFile env identity = false -> result.1 = Normal created).
Proof.
  cbv zeta. rewrite create_is_materialize.
  destruct (hostCreateLanguageServiceSourceFile _ _ _ _ _ _ _)
    as [created tree] eqn:Hhost.
  assert (materialize env tsModule identity snapshot target version
            setNodeParents classification st
          = routeDocument env tsModule identity created snapshot version
              classification
              (mkState (<[created := tree]> (store st))
                 (<[created := classification]> (scriptKindTracker st))
                 (modificationTracker st) (templateSourceMap st) (console st)))
    as ->.
  { unfold materialize, bind, hostCall, scriptKindTracker_set.
    by rewrite Hhost. }
  simpl. split.
  - unfold scriptKindTracker_get. rewrite routeDocument_scriptKindTracker.
    simpl. by rewrite lookup_insert_eq.
  - intros Hscript. unfold routeDocument. rewrite Hscript.
    unfold bind at 1.
    destruct (modifySourceFile _ _ _ _ _ _ _) as [[[]|err] st'] eqn:Hm; [done|].
    exfalso. revert Hm. clear. run_all.
Qed.

(** X17: an update of the document that the creation of a file that is
    not template-synthetic returned routes the updated document with the
    classification given at creation. *)
Lemma update_after_script_creation identity snapshot target version setNodeParents
    classification st document st1 snapshot' version' changeRange aggressiveChecks :
  createLanguageServiceSourceFile env tsModule identity snapshot target version
    setNodeParents classification st = (Normal document, st1) ->
  isVirtualVueTemplateFile env identity = false ->
  updateLanguageServiceSourceFile env tsModule document snapshot' version'
    changeRange aggressiveChecks st1
  = let '(updated, tree) :=
      hostUpdateLanguageServiceSourceFile tsModule document snapshot' version'
        changeRange aggressiveChecks (store st1) in
    routeDocument env tsModule (fileName tree) updated snapshot' version'
      classification
      (mkState (<[updated := tree]> (store st1)) (scriptKindTracker st1)
         (modificationTracker st1) (templateSourceMap st1) (console st1)).
Proof.
  intros Hcreate Hscript.
  pose proof (creation_stores_classification identity snapshot target version
                setNodeParents classification st) as Hstored.
  cbv zeta in Hstored. rewrite Hcreate in Hstored. simpl in Hstored.
  destruct Hstored as [Hget Hreturned].
  specialize (Hreturned Hscript). injection Hreturned as Hdocument.
  rewrite <- Hdocument in Hget.
  unfold scriptKindTracker_get in Hget. injection Hget as Hkind.
  rewrite update_is_reapply. unfold reapply. by rewrite Hkind.
Qed.

End Hooks.

(** ** Runs in the example world *)

Lemma blankSnapshot_whitespace_only :
  isWhitespaceOnly
    (getText (getSingleTypeDocument Example.env "template"
                (snapshotText Example.blankSnapshot))).
Proof. repeat constructor. Qed.

(** C1 as stated fails: on [brokenSnapshot] the visitor throws after
    producing one expression, the derivation returns normally, and neither
    the tree that was printed nor the returned document wraps one
    statement: they wrap none, the injection never ran. *)
Lemma transform_failure_counterexample :
  exists produced err derived st' printed tree,
    transformTemplate Example.env
      (parseVueTemplate Example.env (snapshotText Example.brokenSnapshot))
      (parseVueTemplate Example.env (snapshotText Example.brokenSnapshot))
    = TransformFailed produced err /\
    length produced = 1%nat /\
    recreateVueTempalteSourceFile Example.env Example.tsModule "c.vue.template" 0
      Example.brokenSnapshot
      (Example.parsedState "c.vue.template" Example.brokenSnapshot)
    = (Normal derived, st') /\
    store st' !! 0%nat = Some printed /\
    store st' !! derived = Some tree /\
    length (wrappedStatements printed) <> length produced /\
    length (wrappedStatements tree) <> length produced.
Proof.
  do 6 eexists. split; [reflexivity|]. split; [reflexivity|].
  split; [vm_compute; reflexivity|].
  split; [vm_compute; reflexivity|]. split; [vm_compute; reflexivity|].
  split; vm_compute; discriminate.
Qed.

Lemma transform_failure_is_contained_witness :
  exists derived tree st',
    recreateVueTempalteSourceFile Example.env Example.tsModule "c.vue.template" 0
      Example.brokenSnapshot
      (Example.parsedState "c.vue.template" Example.brokenSnapshot)
    = (Normal derived, st') /\
    hostCreateSourceFile Example.tsModule "c.vue.template"
      (printFile Example.tsModule
         (mkSourceFile "c.vue.template"
            (ts.createNodeArray
               (Example.parseText (snapshotText Example.brokenSnapshot))) None 0%nat))
      0%nat true JS
      (store (Example.parsedState "c.vue.template" Example.brokenSnapshot))
    = (derived, tree) /\
    store st'
    = <[derived := tree]>
        (store (Example.parsedState "c.vue.template" Example.brokenSnapshot)) /\
    console st'
    = ([] ++ [LogMessage ("Failed to transform template of " +:+ "c.vue.template");
              LogError "SyntaxError"])%list /\
    scriptKindTracker st' = ∅ /\
    modificationTracker st' = ∅.
Proof.
  apply (transform_failure_is_contained Example.env Example.tsModule
           "c.vue.template" 0 Example.brokenSnapshot
           (Example.parsedState "c.vue.template" Example.brokenSnapshot)
           (mkSourceFile "c.vue.template"
              (ts.createNodeArray
                 (Example.parseText (snapshotText Example.brokenSnapshot))) None 0%nat)
           Example.brokenTemplate
           [IdentifierExpression (ts.createIdentifier "a")] "SyntaxError").
  - vm_compute. reflexivity.
  - reflexivity.
  - reflexivity.
Defined.

Lemma position_maps_under_both_keys_witness :
  exists derived st' original synthetic,
    recreateVueTempalteSourceFile Example.env Example.tsModule "c.vue.template" 0
      Example.helloSnapshot
      (Example.parsedState "c.vue.template" Example.helloSnapshot)
    = (Normal derived, st') /\
    store st' !! 0%nat = Some original /\
    store st' !! derived = Some synthetic /\
    templateSourceMap st' !! "c.vue.template"
    = Some (generateSourceMap Example.env original synthetic) /\
    templateSourceMap st' !! sliceEnd "c.vue.template" 9
    = Some (generateSourceMap Example.env original synthetic) /\
    (forall key, key <> "c.vue.template" -> key <> sliceEnd "c.vue.template" 9 ->
                 templateSourceMap st' !! key
                 = templateSourceMap
                     (Example.parsedState "c.vue.template" Example.helloSnapshot) !! key) /\
    (forall base, "c.vue.template" = base +:+ ".template" ->
                  sliceEnd "c.vue.template" 9 = base).
Proof.
  apply (position_maps_under_both_keys Example.env Example.tsModule
           "c.vue.template" 0 Example.helloSnapshot
           (Example.parsedState "c.vue.template" Example.helloSnapshot)
           (mkSourceFile "c.vue.template"
              (ts.createNodeArray
                 (Example.parseText (snapshotText Example.helloSnapshot))) None 0%nat)
           "<template><p>hi</p></template>").
  - vm_compute. reflexivity.
  - reflexivity.
Defined.

(** C7 as stated fails: on the whitespace-only [blankSnapshot] the tree
    that is printed holds three statements and the returned document is not
    empty either; and with a visitor that throws on every template the
    failure is logged, so the visitor was called. *)
Lemma whitespace_only_template_counterexample :
  isWhitespaceOnly
    (getText (getSingleTypeDocument Example.env "template"
                (snapshotText Example.blankSnapshot))) /\
  parseVueTemplate Example.env (snapshotText Example.blankSnapshot) = "" /\
  (exists derived st' printed tree,
     recreateVueTempalteSourceFile Example.env Example.tsModule "c.vue.template" 0
       Example.blankSnapshot
       (Example.parsedState "c.vue.template" Example.blankSnapshot)
     = (Normal derived, st') /\
     store st' !! 0%nat = Some printed /\
     length (items (statements printed)) = 3%nat /\
     store st' !! derived = Some tree /\
     items (statements tree) <> []) /\
  (exists derived st',
     recreateVueTempalteSourceFile Example.rejectingEnv Example.tsModule
       "c.vue.template" 0 Example.blankSnapshot
       (Example.parsedState "c.vue.template" Example.blankSnapshot)
     = (Normal derived, st') /\
     console st'
     = [LogMessage "Failed to transform template of c.vue.template";
        LogError "TransformError"]).
Proof.
  split; [exact blankSnapshot_whitespace_only|]. split; [reflexivity|]. split.
  - do 4 eexists. split; [vm_compute; reflexivity|].
    split; [vm_compute; reflexivity|]. split; [reflexivity|].
    split; [vm_compute; reflexivity|]. discriminate.
  - do 2 eexists. split; [vm_compute; reflexivity|]. reflexivity.
Qed.

Lemma whitespace_only_template_is_injected_witness :
  let st := Example.parsedState "c.vue.template" Example.blankSnapshot in
  let sf :=
    mkSourceFile "c.vue.template"
      (ts.createNodeArray (Example.parseText (snapshotText Example.blankSnapshot)))
      None 0%nat in
  parseVueTemplate Example.env (snapshotText Example.blankSnapshot) = "" /\
  exists derived tree st',
    recreateVueTempalteSourceFile Example.env Example.tsModule "c.vue.template" 0
      Example.blankSnapshot st
    = (Normal derived, st') /\
    hostCreateSourceFile Example.tsModule "c.vue.template"
      (printFile Example.tsModule (injectVueTemplate Example.env sf []))
      (languageVersion sf) true JS
      (alter (fun sf => injectVueTemplate Example.env sf []) 0%nat (store st))
    = (derived, tree) /\
    store st'
    = <[derived := tree]>
        (alter (fun sf => injectVueTemplate Example.env sf []) 0%nat (store st)) /\
    length (items (statements (injectVueTemplate Example.env sf []))) = 3%nat /\
    wrappedStatements (injectVueTemplate Example.env sf [])
    = ExpressionStatement synthesizedRange <$> [].
Proof.
  apply (whitespace_only_template_is_injected Example.env Example.tsModule
           "c.vue.template" 0 Example.blankSnapshot
           (Example.parsedState "c.vue.template" Example.blankSnapshot)
           (mkSourceFile "c.vue.template"
              (ts.createNodeArray
                 (Example.parseText (snapshotText Example.blankSnapshot))) None 0%nat)
           "" []).
  - repeat constructor.
  - vm_compute. reflexivity.
  - reflexivity.
  - reflexivity.
Defined.

(** C2 as stated fails: the template-synthetic document that creation
    returns carries the processed-mark, and an update that reaches this
    very object replaces its statement list all the same. *)
Lemma processed_mark_counterexample :
  exists document st1 before derived st2 after,
    createLanguageServiceSourceFile Example.env Example.tsModule "c.vue.template"
      Example.helloSnapshot 0 "1" true None Example.emptyState
    = (Normal document, st1) /\
    document ∈ modificationTracker st1 /\
    store st1 !! document = Some before /\
    hostUpdateLanguageServiceSourceFile Example.tsModule document Example.byeSnapshot
      "2" Example.unchangedRange None (store st1) = (document, before) /\
    updateLanguageServiceSourceFile Example.env Example.tsModule document
      Example.byeSnapshot "2" Example.unchangedRange None st1
    = (Normal derived, st2) /\
    store st2 !! document = Some after /\
    items (statements after) <> items (statements before) /\
    st2 <> st1.
Proof.
  do 6 eexists. split; [vm_compute; reflexivity|].
  split.
  { match goal with |- ?P => apply (bool_decide_eq_true_1 P) end.
    vm_compute. reflexivity. }
  split; [vm_compute; reflexivity|]. split; [vm_compute; reflexivity|].
  split; [vm_compute; reflexivity|]. split; [vm_compute; reflexivity|].
  split; [simpl; discriminate|]. intros H. apply (f_equal modificationTracker) in H.
  apply (f_equal (fun marks => bool_decide (2%nat ∈ marks))) in H.
  revert H. vm_compute. discriminate.
Qed.

Lemma processed_mark_guards_script_path_witness :
  0%nat ∈ modificationTracker Example.scriptCreated /\
  exists tree,
    store Example.scriptCreated !! 0%nat = Some tree /\
    updateLanguageServiceSourceFile Example.env Example.tsModule 0
      (mkSnapshot "export default {};") "2" Example.unchangedRange None
      Example.scriptCreated
    = (Normal 0%nat,
       mkState (<[0%nat := tree]> (store Example.scriptCreated))
         (scriptKindTracker Example.scriptCreated)
         (modificationTracker Example.scriptCreated)
         (templateSourceMap Example.scriptCreated)
         (console Example.scriptCreated)).
Proof.
  assert (0%nat ∈ modificationTracker Example.scriptCreated) as Hmarked.
  { apply (bool_decide_eq_true_1 (0%nat ∈ modificationTracker Example.scriptCreated)).
    vm_compute. reflexivity. }
  split; [exact Hmarked|].
  destruct (processed_mark_guards_script_path Example.env Example.tsModule 0
              Example.scriptCreated Hmarked) as (_ & _ & Hupdate).
  eexists. split; [vm_compute; reflexivity|].
  apply Hupdate; vm_compute; reflexivity.
Defined.

(** * Further properties *)

(** ** Template extraction *)

Lemma removeWhitespace_empty (s : string) :
  removeWhitespace s = "" <-> isWhitespaceOnly s.
Proof.
  split; [|apply removeWhitespace_whitespace_only].
  unfold isWhitespaceOnly. induction s as [|c s IH]; simpl; [constructor|].
  destruct (isWhitespace c) eqn:Hc; [|discriminate].
  intros H. constructor; auto.
Qed.

Lemma string_app_assoc (a b c : string) : (a +:+ b) +:+ c = a +:+ (b +:+ c).
Proof.
  induction a as [|x a IH]; [done|].
  unfold String.append; fold String.append. by f_equal.
Qed.

Lemma substring_suffix (a b : string) :
  substring (String.length a) (String.length b) (a +:+ b) = b.
Proof. induction a as [|c a IH]; simpl; [apply substring_whole|done]. Qed.

Lemma substring_drop_prefix (a b : string) :
  substring (String.length a) (String.length (a +:+ b) - String.length a) (a +:+ b) = b.
Proof.
  rewrite string_length_app.
  replace (String.length a + String.length b - String.length a)%nat
    with (String.length b) by lia.
  apply substring_suffix.
Qed.

(** A string with a prefix is the prefix followed by the rest. *)
Lemma prefix_split (a s : string) :
  String.prefix a s = true ->
  s = a +:+ substring (String.length a) (String.length s - String.length a) s.
Proof.
  revert s. induction a as [|c a IH]; intros s H; simpl.
  - rewrite Nat.sub_0_r. by rewrite substring_whole.
  - destruct s as [|d s]; simpl in H; [discriminate|].
    destruct (ascii_dec c d) as [->|]; [|discriminate].
    simpl. unfold String.append; fold String.append. f_equal. by apply IH.
Qed.

Lemma prefix_app (a b : string) : String.prefix a (a +:+ b) = true.
Proof. apply prefix_correct, substring_prefix. Qed.

Lemma replaceTenSpaces_unfold (by_ s : string) :
  replaceTenSpaces by_ s
  = if String.prefix tenSpaces s
    then by_ +:+ substring 10 (String.length s - 10) s
    else match s with
         | EmptyString => EmptyString
         | String c rest => String c (replaceTenSpaces by_ rest)
         end.
Proof. by destruct s. Qed.

(** A replacement of ten code units keeps the length, with or without a
    match. *)
Lemma replaceTenSpaces_length (by_ s : string) :
  String.length by_ = 10%nat ->
  String.length (replaceTenSpaces by_ s) = String.length s.
Proof.
  intros Hby. induction s as [|c s IH].
  - reflexivity.
  - rewrite replaceTenSpaces_unfold.
    destruct (String.prefix tenSpaces (String c s)) eqn:Hp.
    + apply prefix_split in Hp. change (String.length tenSpaces) with 10%nat in Hp.
      remember (substring 10 (String.length (String c s) - 10) (String c s)) as rest.
      rewrite string_length_app, Hby, Hp, string_length_app. reflexivity.
    + simpl. by rewrite IH.
Qed.

(** X1: [parseVueTemplate] returns the empty string exactly when the
    template region is not [vue-html] or its text is whitespace-only; in
    every other case the result ends with the closing tag it appends. *)
Theorem parseVueTemplate_empty_iff (env : Collaborators) (text : string) :
  let template := getSingleTypeDocument env "template" text in
  (parseVueTemplate env text = "" <->
   languageId template <> "vue-html" \/ isWhitespaceOnly (getText template)) /\
  (parseVueTemplate env text <> "" ->
   parseVueTemplate env text
   = replaceTenSpaces "<template>" (getText template) +:+ "</template>").
Proof.
  cbv zeta. unfold parseVueTemplate.
  destruct (String.eqb (languageId _) "vue-html") eqn:Hlang; simpl.
  - apply String.eqb_eq in Hlang.
    destruct (String.eqb (removeWhitespace _) "") eqn:Hblank.
    + apply String.eqb_eq, removeWhitespace_empty in Hblank.
      split; [|done]. split; auto.
    + apply String.eqb_neq in Hblank. split; [|done]. split.
      * intros H. by destruct (replaceTenSpaces _ _).
      * intros [H|H]; [done|]. by apply removeWhitespace_empty in H.
  - apply String.eqb_neq in Hlang. split; [|done]. split; auto.
Qed.

(** X2: a template text that is not dropped is the region text with one
    run of ten code units replaced by the ten of [<template>] and eleven
    appended, so every offset of the region text is an offset of the same
    character in the template code. *)
Theorem parseVueTemplate_length (env : Collaborators) (text : string) :
  parseVueTemplate env text <> "" ->
  String.length (parseVueTemplate env text)
  = (String.length (getText (getSingleTypeDocument env "template" text)) + 11)%nat.
Proof.
  unfold parseVueTemplate.
  destruct (negb _); [done|].
  destruct (String.eqb (removeWhitespace _) ""); [done|]. intros _.
  rewrite string_length_app. by rewrite replaceTenSpaces_length.
Qed.

Lemma parseVueTemplate_length_witness :
  String.length (parseVueTemplate Example.env (snapshotText Example.helloSnapshot))
  = (String.length
       (getText (getSingleTypeDocument Example.env "template"
                   (snapshotText Example.helloSnapshot))) + 11)%nat.
Proof.
  apply (parseVueTemplate_length Example.env (snapshotText Example.helloSnapshot)).
  discriminate.
Defined.

(** X3: the opening tag goes where the leftmost run of ten spaces starts
    and nowhere else: a text that splits into a front, ten spaces and a
    rest, with no run of ten spaces starting inside the front, has exactly
    these ten spaces replaced; a text without any run of ten spaces is
    left as it is. *)
Theorem replaceTenSpaces_leftmost (by_ : string) :
  (forall front rest,
     (forall a b, front = a +:+ b -> b <> "" ->
                  String.prefix tenSpaces (b +:+ tenSpaces +:+ rest) = false) ->
     replaceTenSpaces by_ (front +:+ tenSpaces +:+ rest) = front +:+ by_ +:+ rest) /\
  (forall s,
     (forall a b, s = a +:+ b -> String.prefix tenSpaces b = false) ->
     replaceTenSpaces by_ s = s).
Proof.
  split.
  - intros front rest. induction front as [|c front IH]; intros Hleft.
    + change ("" +:+ tenSpaces +:+ rest) with (tenSpaces +:+ rest).
      change ("" +:+ by_ +:+ rest) with (by_ +:+ rest).
      rewrite replaceTenSpaces_unfold, prefix_app. f_equal.
      apply (substring_drop_prefix tenSpaces rest).
    + rewrite replaceTenSpaces_unfold.
      rewrite (Hleft "" (String c front) eq_refl) by done.
      change ((String c front) +:+ tenSpaces +:+ rest)
        with (String c (front +:+ tenSpaces +:+ rest)).
      cbv iota.
      change (String c front +:+ by_ +:+ rest) with (String c (front +:+ by_ +:+ rest)).
      f_equal. apply IH.
      intros a b -> Hb. by apply (Hleft (String c a) b).
  - intros s. induction s as [|c s IH]; intros Hnone; [done|].
    rewrite replaceTenSpaces_unfold.
    rewrite (Hnone "" (String c s) eq_refl). f_equal. apply IH.
    intros a b ->. by apply (Hnone (String c a) b).
Qed.

Lemma replaceTenSpaces_leftmost_witness :
  replaceTenSpaces "<template>" (String "010" "" +:+ tenSpaces +:+ "<p/>")
  = String "010" "" +:+ "<template>" +:+ "<p/>".
Proof.
  apply (proj1 (replaceTenSpaces_leftmost "<template>") (String "010" "") "<p/>").
  intros a b Hsplit Hb. destruct a as [|x a].
  - change ("" +:+ b) with b in Hsplit. subst b. reflexivity.
  - change (String x a +:+ b) with (String x (a +:+ b)) in Hsplit.
    injection Hsplit as _ Hrest. destruct a; [|discriminate].
    change ("" +:+ b) with b in Hrest. by subst b.
Defined.

(** ** More on the script rewrite *)

Section ScriptRewriteFrame.

Implicit Types (sourceFile : SourceFile) (st : Statement).

(** X4: when the rewrite applies it changes one statement only, the
    first top-level export assignment of an object literal.  The list
    grows by the import in front; every other statement, a later
    qualifying export included, moves one slot further as it is; the file
    name, the language version and the range of the statement array
    stay. *)
Theorem modifyVueScript_frame sourceFile :
  (exists st, st ∈ items (statements sourceFile) /\ isExportDefaultObject st = true) ->
  exists i,
    (exists st, items (statements sourceFile) !! i = Some st /\
                isExportDefaultObject st = true) /\
    (forall j st, items (statements sourceFile) !! j = Some st -> (j < i)%nat ->
                  isExportDefaultObject st = false) /\
    length (items (statements (modifyVueScript sourceFile)))
    = S (length (items (statements sourceFile))) /\
    (forall j st, j <> i -> items (statements sourceFile) !! j = Some st ->
                  items (statements (modifyVueScript sourceFile)) !! S j = Some st) /\
    fileName (modifyVueScript sourceFile) = fileName sourceFile /\
    languageVersion (modifyVueScript sourceFile) = languageVersion sourceFile /\
    arrayRange (statements (modifyVueScript sourceFile))
    = arrayRange (statements sourceFile).
Proof.
  intros (st & Hin & Hst).
  destruct (find_export_cases sourceFile)
    as [[_ Hnone]|(i & r & eq & objRange & props & Hfind & Hi & Hmin)].
  - rewrite Forall_forall in Hnone. rewrite (Hnone st Hin) in Hst. discriminate.
  - exists i. split; [eauto|]. split; [exact Hmin|].
    rewrite (modifyVueScript_found _ _ _ _ _ _ Hfind). split; [|split].
    + simpl. by rewrite length_insert.
    + intros j st' Hne Hj. simpl. by rewrite list_lookup_insert_ne.
    + unfold modifyVueScript. by rewrite Hfind.
Qed.

Lemma modifyVueScript_frame_witness :
  exists i,
    (exists st, items (statements Example.twoExportScript) !! i = Some st /\
                isExportDefaultObject st = true) /\
    (forall j st, items (statements Example.twoExportScript) !! j = Some st ->
                  (j < i)%nat -> isExportDefaultObject st = false) /\
    length (items (statements (modifyVueScript Example.twoExportScript)))
    = S (length (items (statements Example.twoExportScript))) /\
    (forall j st, j <> i ->
                  items (statements Example.twoExportScript) !! j = Some st ->
                  items (statements (modifyVueScript Example.twoExportScript)) !! S j
                  = Some st) /\
    fileName (modifyVueScript Example.twoExportScript)
    = fileName Example.twoExportScript /\
    languageVersion (modifyVueScript Example.twoExportScript)
    = languageVersion Example.twoExportScript /\
    arrayRange (statements (modifyVueScript Example.twoExportScript))
    = arrayRange (statements Example.twoExportScript).
Proof.
  apply (modifyVueScript_frame Example.twoExportScript).
  eexists. split; [apply list_elem_of_further, list_elem_of_here | reflexivity].
Defined.

(** In [twoExportScript] the rewrite wraps the export at index 1 and
    leaves the one at index 2 as it was, one slot further. *)
Lemma modifyVueScript_twoExportScript :
  items (statements (modifyVueScript Example.twoExportScript))
  = [ ImportDeclaration (mkRange 0 0)
        (Some (mkImportClause (mkRange 0 0)
                 (Some (mkIdentifier synthesizedRange "__vueEditorBridge")) None))
        (StringLiteral (mkRange 0 0) "vue-editor-bridge");
      OtherStatement (mkRange 0 10) 0;
      ExportAssignment (mkRange 10 30) false
        (CallExpression (mkRange 24 29)
           (IdentifierExpression (mkIdentifier (mkRange 24 25) "__vueEditorBridge"))
           (mkNodeArray (mkRange 24 29) [ObjectLiteralExpression (mkRange 24 29) []]));
      ExportAssignment (mkRange 30 50) false
        (ObjectLiteralExpression (mkRange 44 49) []) ].
Proof. reflexivity. Qed.

Lemma no_export_filter (l : list Statement) :
  Forall (fun st => isExportDefaultObject st = false) l ->
  filter (fun st => isExportDefaultObject st = true) l = [].
Proof.
  induction 1 as [|st l Hst _ IH]; [done|].
  rewrite filter_cons_False; [exact IH|]. rewrite Hst. discriminate.
Qed.

(** The number of qualifying statements after the rewrite, in terms of the
    list before it. *)
Lemma qualifying_after_rewrite sourceFile :
  length (filter (fun st => isExportDefaultObject st = true)
            (items (statements (modifyVueScript sourceFile))))
  = pred (length (filter (fun st => isExportDefaultObject st = true)
                    (items (statements sourceFile)))).
Proof.
  destruct (find_export_cases sourceFile)
    as [[Hfind Hnone]|(i & r & eq & objRange & props & Hfind & Hi & Hmin)].
  - unfold modifyVueScript. rewrite Hfind.
    by rewrite (no_export_filter _ Hnone).
  - rewrite (modifyVueScript_found _ _ _ _ _ _ Hfind).
    rewrite filter_cons_False by (simpl; discriminate).
    pose proof (lookup_lt_Some _ _ _ Hi) as Hlt.
    rewrite insert_take_drop by done.
    rewrite <- (take_drop_middle _ _ _ Hi) at 3.
    rewrite !filter_app, !length_app.
    rewrite filter_cons_False by (simpl; discriminate).
    rewrite filter_cons_True by done. simpl. lia.
Qed.

(** X5: each run of the rewrite takes exactly one statement out of the
    set it looks for: the number of top-level export assignments of an
    object literal goes down by one, or stays at zero. *)
Theorem modifyVueScript_consumes_one_export sourceFile :
  length (filter (fun st => isExportDefaultObject st = true)
            (items (statements (modifyVueScript sourceFile))))
  = pred (length (filter (fun st => isExportDefaultObject st = true)
                    (items (statements sourceFile)))).
Proof. apply qualifying_after_rewrite. Qed.

(** X6: on a script with at most one top-level export assignment of an
    object literal the rewrite is idempotent: a second run finds nothing
    to wrap and adds no second import. *)
Theorem modifyVueScript_idempotent_single_export sourceFile :
  (length (filter (fun st => isExportDefaultObject st = true)
             (items (statements sourceFile))) <= 1)%nat ->
  modifyVueScript (modifyVueScript sourceFile) = modifyVueScript sourceFile.
Proof.
  intros Hone.
  pose proof (qualifying_after_rewrite sourceFile) as Hcount.
  assert (filter (fun st => isExportDefaultObject st = true)
            (items (statements (modifyVueScript sourceFile))) = []) as Hnone.
  { apply length_zero_iff_nil. lia. }
  destruct (find_export_cases (modifyVueScript sourceFile))
    as [[Hfind _]|(i & r & eq & objRange & props & _ & Hi & _)].
  - unfold modifyVueScript at 1. by rewrite Hfind.
  - apply list_elem_of_lookup_2 in Hi.
    pose proof (filter_nil_not_elem_of _ _
                  (ExportAssignment r eq (ObjectLiteralExpression objRange props))
                  Hnone eq_refl) as Hnot.
    by destruct Hnot.
Qed.

Lemma modifyVueScript_idempotent_single_export_witness :
  modifyVueScript (modifyVueScript Example.defaultExportScript)
  = modifyVueScript Example.defaultExportScript.
Proof.
  apply (modifyVueScript_idempotent_single_export Example.defaultExportScript).
  vm_compute. lia.
Defined.

End ScriptRewriteFrame.

(** ** More on the template injection *)

(** X7: an injection replaces whatever an earlier injection or the parser
    left: of two injections the later one alone shows, and the script
    rewrite finds nothing to wrap in an injected tree. *)
Theorem injectVueTemplate_overwrites (env : Collaborators) (sourceFile : SourceFile)
    (first second : list Expression) :
  injectVueTemplate env (injectVueTemplate env sourceFile first) second
  = injectVueTemplate env sourceFile second /\
  modifyVueScript (injectVueTemplate env sourceFile second)
  = injectVueTemplate env sourceFile second.
Proof. split; reflexivity. Qed.

Lemma sliceEnd_short (s : string) (n : nat) :
  (String.length s <= n)%nat -> sliceEnd s n = "".
Proof.
  intros H. unfold sliceEnd.
  replace (String.length s - n)%nat with 0%nat by lia. by destruct s.
Qed.

(** X8: the component import of an injected tree names the sibling
    component: for a file name that is a base followed by nine code units
    (as [.template] is) the module specifier is [./] and the basename of
    the base; for a file name of at most nine code units it is [./] and the
    basename of the empty string. *)
Theorem injectVueTemplate_component_path (env : Collaborators)
    (sourceFile : SourceFile) (renderBlock : list Expression) :
  (forall base suffix,
     fileName sourceFile = base +:+ suffix -> String.length suffix = 9%nat ->
     items (statements (injectVueTemplate env sourceFile renderBlock)) !! 0%nat
     = Some (ImportDeclaration synthesizedRange
               (Some (mkImportClause synthesizedRange
                        (Some (mkIdentifier synthesizedRange "__Component")) None))
               (StringLiteral synthesizedRange ("./" +:+ basename env base)))) /\
  ((String.length (fileName sourceFile) <= 9)%nat ->
   items (statements (injectVueTemplate env sourceFile renderBlock)) !! 0%nat
   = Some (ImportDeclaration synthesizedRange
             (Some (mkImportClause synthesizedRange
                      (Some (mkIdentifier synthesizedRange "__Component")) None))
             (StringLiteral synthesizedRange ("./" +:+ basename env "")))).
Proof.
  split.
  - intros base suffix Hname Hlen. simpl. rewrite Hname, <- Hlen.
    by rewrite sliceEnd_suffix.
  - intros Hshort. simpl. by rewrite sliceEnd_short.
Qed.

(** ** More on the lifecycle hooks *)

Section HooksFrame.

Context (env : Collaborators) (tsModule : T_TypeScript).

Local Ltac run_hooks :=
  unfold recreateVueTempalteSourceFile, modifySourceFile, bind, tryCatch,
    liftCompletion, callTransformTemplate, readSourceFile, mutateSourceFile,
    hostCall, templateSourceMap_set, console_log, modificationTracker_has,
    modificationTracker_add, scriptKindTracker_set, scriptKindTracker_get,
    ret, throw;
  repeat (case_match; simplify_eq/=); try done.

Lemma recreateVueTempalteSourceFile_modificationTracker (name : string)
    (sourceFile : nat) (snapshot : IScriptSnapshot) (st : UpdaterState) :
  modificationTracker
    (recreateVueTempalteSourceFile env tsModule name sourceFile snapshot st).2
  = modificationTracker st.
Proof. run_hooks. Qed.

Lemma recreateVueTempalteSourceFile_console (name : string)
    (sourceFile : nat) (snapshot : IScriptSnapshot) (st : UpdaterState) :
  console st `prefix_of`
    console (recreateVueTempalteSourceFile env tsModule name sourceFile snapshot st).2.
Proof.
  run_hooks; try (by repeat apply prefix_app_r).
Qed.

(** X9: the derivation leaves the bookkeeping to its callers: whatever its
    outcome, it neither marks a document nor stores a classification, and
    the log it leaves starts with the log it found. *)
Theorem recreateVueTempalteSourceFile_frame (name : string) (sourceFile : nat)
    (snapshot : IScriptSnapshot) (st : UpdaterState) :
  let st' :=
    (recreateVueTempalteSourceFile env tsModule name sourceFile snapshot st).2 in
  modificationTracker st' = modificationTracker st /\
  scriptKindTracker st' = scriptKindTracker st /\
  console st `prefix_of` console st'.
Proof.
  cbv zeta. split; [|split].
  - apply recreateVueTempalteSourceFile_modificationTracker.
  - apply recreateVueTempalteSourceFile_scriptKindTracker.
  - apply recreateVueTempalteSourceFile_console.
Qed.

(** X10: the script routing never throws and reaches nothing but the
    document it is given: every other object keeps its tree and its mark
    status, the document's tree is as before or rewritten by
    [modifyVueScript], no mark is removed, and the classification table,
    the position maps and the log are untouched. *)
Theorem modifySourceFile_frame (name : string) (sourceFile : nat)
    (snapshot : IScriptSnapshot) (version : string)
    (scriptKind : option ScriptKind) (st : UpdaterState) :
  exists st',
    modifySourceFile env name sourceFile snapshot version scriptKind st
    = (Normal tt, st') /\
    (forall other, other <> sourceFile -> store st' !! other = store st !! other) /\
    (store st' !! sourceFile = store st !! sourceFile \/
     store st' !! sourceFile = modifyVueScript <$> store st !! sourceFile) /\
    (forall other, other <> sourceFile ->
                   other ∈ modificationTracker st' <-> other ∈ modificationTracker st) /\
    modificationTracker st ⊆ modificationTracker st' /\
    scriptKindTracker st' = scriptKindTracker st /\
    templateSourceMap st' = templateSourceMap st /\
    console st' = console st.
Proof.
  destruct (decide (sourceFile ∈ modificationTracker st)) as [Hm|Hm].
  - exists st. rewrite modifySourceFile_marked by done.
    repeat split; auto.
  - rewrite modifySourceFile_unmarked by done.
    destruct (_ && _); eexists; (split; [reflexivity|]); simpl.
    + split; [intros; by rewrite lookup_alter_ne|].
      split; [right; apply lookup_alter_eq|].
      split.
      { intros other Hne. rewrite elem_of_union, elem_of_singleton. tauto. }
      split; [apply union_subseteq_r|]. done.
    + repeat split; auto.
Qed.

(** The run of creation for a file that is not template-synthetic. *)
Lemma createLanguageServiceSourceFile_script_run (identity : string)
    (snapshot : IScriptSnapshot) (target : nat) (version : string)
    (setNodeParents : bool) (classification : option ScriptKind)
    (st : UpdaterState) (created : nat) (tree : SourceFile) :
  isVirtualVueTemplateFile env identity = false ->
  hostCreateLanguageServiceSourceFile tsModule identity snapshot target version
    setNodeParents classification (store st) = (created, tree) ->
  createLanguageServiceSourceFile env tsModule identity snapshot target version
    setNodeParents classification st
  = (Normal created,
     if isVue env identity && negb (isTSLike classification)
        && negb (bool_decide (created ∈ modificationTracker st))
     then mkState (<[created := modifyVueScript tree]> (store st))
            (<[created := classification]> (scriptKindTracker st))
            ({[created]} ∪ modificationTracker st) (templateSourceMap st) (console st)
     else mkState (<[created := tree]> (store st))
            (<[created := classification]> (scriptKindTracker st))
            (modificationTracker st) (templateSourceMap st) (console st)).
Proof.
  intros Hscript Hhost.
  unfold createLanguageServiceSourceFile, clssf.
  unfold bind at 1. unfold hostCall. rewrite Hhost.
  unfold bind at 1. unfold scriptKindTracker_set at 1. cbv beta iota.
  rewrite Hscript. unfold bind at 1.
  destruct (decide (created ∈ modificationTracker st)) as [Hm|Hm].
  - rewrite modifySourceFile_marked by done.
    rewrite bool_decide_eq_true_2 by done. by rewrite !andb_false_r.
  - rewrite modifySourceFile_unmarked by done.
    rewrite bool_decide_eq_false_2 by done. rewrite andb_true_r.
    destruct (_ && _); [|done]. simpl. by rewrite alter_insert_eq.
Qed.

(** X11: creating a document that is not template-synthetic never throws
    and returns the object the host created, with its classification
    stored.  The tree is rewritten by [modifyVueScript], and the object
    marked, exactly when the file is a [.vue] file, the classification is
    not TS or TSX and the object does not carry the mark yet; in every
    other case the tree is the host's and no mark is set. *)
Theorem createLanguageServiceSourceFile_script (identity : string)
    (snapshot : IScriptSnapshot) (target : nat) (version : string)
    (setNodeParents : bool) (classification : option ScriptKind)
    (st : UpdaterState) (created : nat) (tree : SourceFile) :
  isVirtualVueTemplateFile env identity = false ->
  hostCreateLanguageServiceSourceFile tsModule identity snapshot target version
    setNodeParents classification (store st) = (created, tree) ->
  createLanguageServiceSourceFile env tsModule identity snapshot target version
    setNodeParents classification st
  = (Normal created,
     if isVue env identity && negb (isTSLike classification)
        && negb (bool_decide (created ∈ modificationTracker st))
     then mkState (<[created := modifyVueScript tree]> (store st))
            (<[created := classification]> (scriptKindTracker st))
            ({[created]} ∪ modificationTracker st) (templateSourceMap st) (console st)
     else mkState (<[created := tree]> (store st))
            (<[created := classification]> (scriptKindTracker st))
            (modificationTracker st) (templateSourceMap st) (console st)).
Proof. apply createLanguageServiceSourceFile_script_run. Qed.

(** X12: an update whose updated document is not template-synthetic never
    throws and returns the object the host's update returned.  It routes
    with the classification stored for the object it was given: the tree
    is rewritten and the object marked exactly when the updated file is a
    [.vue] file, that classification is not TS or TSX, and the updated
    object does not carry the mark yet. *)
Theorem updateLanguageServiceSourceFile_script (existing : nat)
    (snapshot : IScriptSnapshot) (version : string)
    (changeRange : TextChangeRange) (aggressiveChecks : option bool)
    (st : UpdaterState) (updated : nat) (tree : SourceFile) :
  hostUpdateLanguageServiceSourceFile tsModule existing snapshot version
    changeRange aggressiveChecks (store st) = (updated, tree) ->
  isVirtualVueTemplateFile env (fileName tree) = false ->
  updateLanguageServiceSourceFile env tsModule existing snapshot version
    changeRange aggressiveChecks st
  = (Normal updated,
     if isVue env (fileName tree)
        && negb (isTSLike (default None (scriptKindTracker st !! existing)))
        && negb (bool_decide (updated ∈ modificationTracker st))
     then mkState (<[updated := modifyVueScript tree]> (store st))
            (scriptKindTracker st)
            ({[updated]} ∪ modificationTracker st) (templateSourceMap st) (console st)
     else mkState (<[updated := tree]> (store st)) (scriptKindTracker st)
            (modificationTracker st) (templateSourceMap st) (console st)).
Proof.
  intros Hhost Hscript.
  unfold updateLanguageServiceSourceFile, ulssf.
  unfold bind at 1. unfold scriptKindTracker_get at 1. cbv beta iota.
  unfold bind at 1. unfold hostCall. rewrite Hhost.
  unfold bind at 1. unfold readSourceFile at 1. cbv beta iota. simpl.
  rewrite lookup_insert_eq. rewrite Hscript. unfold bind at 1.
  destruct (decide (updated ∈ modificationTracker st)) as [Hm|Hm].
  - rewrite modifySourceFile_marked by done.
    rewrite bool_decide_eq_true_2 by done. by rewrite !andb_false_r.
  - rewrite modifySourceFile_unmarked by done.
    rewrite bool_decide_eq_false_2 by done. rewrite andb_true_r.
    destruct (_ && _); [|done]. simpl. by rewrite alter_insert_eq.
Qed.

(** X13: creating a template-synthetic document, when the markup parser
    and the transform visitor both return: the host's own object ends up
    holding the injected tree, the document returned is the one the host
    parses from the print of that tree, it is this returned document that
    is marked, the classification is stored under the host's object, both
    position-map keys hold the map of the two trees, and nothing is
    logged. *)
Theorem createLanguageServiceSourceFile_template (identity : string)
    (snapshot : IScriptSnapshot) (target : nat) (version : string)
    (setNodeParents : bool) (classification : option ScriptKind)
    (st : UpdaterState) (created : nat) (tree : SourceFile)
    (program : ESLintProgram) (expressions : list Expression)
    (derived : nat) (synthetic : SourceFile) :
  isVirtualVueTemplateFile env identity = true ->
  hostCreateLanguageServiceSourceFile tsModule identity snapshot target version
    setNodeParents classification (store st) = (created, tree) ->
  parse env (parseVueTemplate env (snapshotText snapshot)) = Normal program ->
  transformTemplate env program (parseVueTemplate env (snapshotText snapshot))
  = Transformed expressions ->
  hostCreateSourceFile tsModule identity
    (printFile tsModule (injectVueTemplate env tree expressions))
    (languageVersion tree) true JS
    (<[created := injectVueTemplate env tree expressions]> (store st))
  = (derived, synthetic) ->
  createLanguageServiceSourceFile env tsModule identity snapshot target version
    setNodeParents classification st
  = (Normal derived,
     let original :=
       if decide (derived = created) then synthetic
       else injectVueTemplate env tree expressions in
     let sourceMapNodes := generateSourceMap env original synthetic in
     mkState
       (<[derived := synthetic]>
          (<[created := injectVueTemplate env tree expressions]> (store st)))
       (<[created := classification]> (scriptKindTracker st))
       ({[derived]} ∪ modificationTracker st)
       (<[sliceEnd identity 9 := sourceMapNodes]>
          (<[identity := sourceMapNodes]> (templateSourceMap st)))
       (console st)).
Proof.
  intros Htemplate Hhost Hparse Htransform Hderived.
  unfold createLanguageServiceSourceFile, clssf.
  unfold bind at 1. unfold hostCall at 1. rewrite Hhost.
  unfold bind at 1. unfold scriptKindTracker_set at 1. cbv beta iota.
  rewrite Htemplate. unfold bind at 1.
  erewrite recreateVueTempalteSourceFile_run;
    [|simpl; apply lookup_insert_eq|exact Hparse].
  cbv zeta. rewrite Htransform. simpl.
  rewrite alter_insert_eq, Hderived. reflexivity.
Qed.

(** X14: an error of the markup parser is not caught.  Creating a
    template-synthetic document then throws that error; by then the host's
    document is in place and its classification stored, but nothing is
    marked, mapped or logged. *)
Theorem createLanguageServiceSourceFile_parse_error (identity : string)
    (snapshot : IScriptSnapshot) (target : nat) (version : string)
    (setNodeParents : bool) (classification : option ScriptKind)
    (st : UpdaterState) (created : nat) (tree : SourceFile) (err : Exception) :
  isVirtualVueTemplateFile env identity = true ->
  hostCreateLanguageServiceSourceFile tsModule identity snapshot target version
    setNodeParents classification (store st) = (created, tree) ->
  parse env (parseVueTemplate env (snapshotText snapshot)) = Throw err ->
  createLanguageServiceSourceFile env tsModule identity snapshot target version
    setNodeParents classification st
  = (Throw err,
     mkState (<[created := tree]> (store st))
       (<[created := classification]> (scriptKindTracker st))
       (modificationTracker st) (templateSourceMap st) (console st)).
Proof.
  intros Htemplate Hhost Hparse.
  unfold createLanguageServiceSourceFile, clssf.
  unfold bind at 1. unfold hostCall at 1. rewrite Hhost.
  unfold bind at 1. unfold scriptKindTracker_set at 1. cbv beta iota.
  rewrite Htemplate. unfold bind at 1.
  by rewrite (recreateVueTempalteSourceFile_parse_failure _ _ _ _ _ _ _ Hparse).
Qed.

(** X15: an update stores no classification: the table after the call is
    the table before it, whatever the outcome.  The document an update
    returns has a classification only if that very object had one. *)
Theorem updateLanguageServiceSourceFile_keeps_classifications (existing : nat)
    (snapshot : IScriptSnapshot) (version : string)
    (changeRange : TextChangeRange) (aggressiveChecks : option bool)
    (st : UpdaterState) :
  scriptKindTracker
    (updateLanguageServiceSourceFile env tsModule existing snapshot version
       changeRange aggressiveChecks st).2
  = scriptKindTracker st.
Proof.
  rewrite update_is_reapply. unfold reapply.
  destruct (hostUpdateLanguageServiceSourceFile _ _ _ _ _ _ _) as [updated tree].
  by rewrite routeDocument_scriptKindTracker.
Qed.

(** X16: creation marks nothing but the document it returns: when it
    returns, the marks are the marks before, with or without the returned
    document added. *)
Theorem createLanguageServiceSourceFile_marks (identity : string)
    (snapshot : IScriptSnapshot) (target : nat) (version : string)
    (setNodeParents : bool) (classification : option ScriptKind)
    (st st' : UpdaterState) (document : nat) :
  createLanguageServiceSourceFile env tsModule identity snapshot target version
    setNodeParents classification st = (Normal document, st') ->
  modificationTracker st' = modificationTracker st \/
  modificationTracker st' = {[document]} ∪ modificationTracker st.
Proof.
  destruct (hostCreateLanguageServiceSourceFile tsModule identity snapshot target
              version setNodeParents classification (store st))
    as [created tree] eqn:Hhost.
  destruct (isVirtualVueTemplateFile env identity) eqn:Hroute.
  - unfold createLanguageServiceSourceFile, clssf.
    unfold bind at 1. unfold hostCall at 1. rewrite Hhost.
    unfold bind at 1. unfold scriptKindTracker_set at 1. cbv beta iota.
    rewrite Hroute. unfold bind at 1.
    match goal with
    | |- context [recreateVueTempalteSourceFile env tsModule ?n ?o ?s ?state] =>
        pose proof (recreateVueTempalteSourceFile_modificationTracker n o s state)
          as Hmarks;
        destruct (recreateVueTempalteSourceFile env tsModule n o s state)
          as [[derived|err] st1]
    end; [|discriminate].
    unfold bind, modificationTracker_add, ret. intros [= <- <-].
    right. simpl in *. by rewrite Hmarks.
  - rewrite (createLanguageServiceSourceFile_script_run _ _ _ _ _ _ _ _ _ Hroute Hhost).
    intros [= <- <-]. destruct (_ && _); simpl; auto.
Qed.

End HooksFrame.

(** ** More runs in the example world *)

Lemma createLanguageServiceSourceFile_script_witness :
  createLanguageServiceSourceFile Example.env Example.tsModule "c.vue"
    (mkSnapshot "export default {};") 0 "1" true None Example.emptyState
  = (Normal 0%nat,
     if isVue Example.env "c.vue" && negb (isTSLike None)
        && negb (bool_decide (0%nat ∈ modificationTracker Example.emptyState))
     then mkState
            (<[0%nat := modifyVueScript Example.defaultExportScript]>
               (store Example.emptyState))
            (<[0%nat := None]> (scriptKindTracker Example.emptyState))
            ({[0%nat]} ∪ modificationTracker Example.emptyState)
            (templateSourceMap Example.emptyState) (console Example.emptyState)
     else mkState
            (<[0%nat := Example.defaultExportScript]> (store Example.emptyState))
            (<[0%nat := None]> (scriptKindTracker Example.emptyState))
            (modificationTracker Example.emptyState)
            (templateSourceMap Example.emptyState) (console Example.emptyState)).
Proof.
  apply (createLanguageServiceSourceFile_script Example.env Example.tsModule "c.vue"
           (mkSnapshot "export default {};") 0 "1" true None Example.emptyState
           0 Example.defaultExportScript).
  - reflexivity.
  - vm_compute. reflexivity.
Defined.

Lemma updateLanguageServiceSourceFile_script_witness :
  updateLanguageServiceSourceFile Example.env Example.tsModule 0
    (mkSnapshot "export default {};") "2" Example.unchangedRange None
    Example.scriptCreated
  = (Normal 0%nat,
     if isVue Example.env "c.vue"
        && negb (isTSLike
                   (default None (scriptKindTracker Example.scriptCreated !! 0%nat)))
        && negb (bool_decide (0%nat ∈ modificationTracker Example.scriptCreated))
     then mkState
            (<[0%nat := modifyVueScript (modifyVueScript Example.defaultExportScript)]>
               (store Example.scriptCreated))
            (scriptKindTracker Example.scriptCreated)
            ({[0%nat]} ∪ modificationTracker Example.scriptCreated)
            (templateSourceMap Example.scriptCreated) (console Example.scriptCreated)
     else mkState
            (<[0%nat := modifyVueScript Example.defaultExportScript]>
               (store Example.scriptCreated))
            (scriptKindTracker Example.scriptCreated)
            (modificationTracker Example.scriptCreated)
            (templateSourceMap Example.scriptCreated) (console Example.scriptCreated)).
Proof.
  apply (updateLanguageServiceSourceFile_script Example.env Example.tsModule 0
           (mkSnapshot "export default {};") "2" Example.unchangedRange None
           Example.scriptCreated 0 (modifyVueScript Example.defaultExportScript)).
  - vm_compute. reflexivity.
  - reflexivity.
Defined.

Lemma createLanguageServiceSourceFile_template_witness :
  exists derived st',
    createLanguageServiceSourceFile Example.env Example.tsModule "c.vue.template"
      Example.helloSnapshot 0 "1" true None Example.emptyState
    = (Normal derived, st').
Proof.
  do 2 eexists.
  eapply (createLanguageServiceSourceFile_template Example.env Example.tsModule
            "c.vue.template" Example.helloSnapshot 0 "1" true None Example.emptyState
            0
            (mkSourceFile "c.vue.template"
               (ts.createNodeArray
                  (Example.parseText (snapshotText Example.helloSnapshot))) None 0%nat)
            "<template><p>hi</p></template>"
            [IdentifierExpression (ts.createIdentifier "<template><p>hi</p></template>")]).
  - reflexivity.
  - vm_compute. reflexivity.
  - reflexivity.
  - reflexivity.
  - vm_compute. reflexivity.
Defined.

Lemma createLanguageServiceSourceFile_parse_error_witness :
  createLanguageServiceSourceFile Example.strictEnv Example.tsModule "c.vue.template"
    Example.brokenSnapshot 0 "1" true None Example.emptyState
  = (Throw "ParseError",
     mkState
       (<[0%nat := mkSourceFile "c.vue.template"
                     (ts.createNodeArray
                        (Example.parseText (snapshotText Example.brokenSnapshot)))
                     None 0%nat]> (store Example.emptyState))
       (<[0%nat := None]> (scriptKindTracker Example.emptyState))
       (modificationTracker Example.emptyState)
       (templateSourceMap Example.emptyState) (console Example.emptyState)).
Proof.
  apply (createLanguageServiceSourceFile_parse_error Example.strictEnv
           Example.tsModule "c.vue.template" Example.brokenSnapshot 0 "1" true None
           Example.emptyState 0).
  - reflexivity.
  - vm_compute. reflexivity.
  - reflexivity.
Defined.

Lemma createLanguageServiceSourceFile_marks_witness :
  modificationTracker Example.scriptCreated = modificationTracker Example.emptyState \/
  modificationTracker Example.scriptCreated
  = {[0%nat]} ∪ modificationTracker Example.emptyState.
Proof.
  apply (createLanguageServiceSourceFile_marks Example.env Example.tsModule "c.vue"
           (mkSnapshot "export default {};") 0 "1" true None Example.emptyState
           Example.scriptCreated 0).
  vm_compute. reflexivity.
Defined.

Lemma update_after_script_creation_witness :
  updateLanguageServiceSourceFile Example.env Example.tsModule 0
    (mkSnapshot "export default {};") "2" Example.unchangedRange None
    Example.scriptCreated
  = let '(updated, tree) :=
      hostUpdateLanguageServiceSourceFile Example.tsModule 0
        (mkSnapshot "export default {};") "2" Example.unchangedRange None
        (store Example.scriptCreated) in
    routeDocument Example.env Example.tsModule (fileName tree) updated
      (mkSnapshot "export default {};") "2" None
      (mkState (<[updated := tree]> (store Example.scriptCreated))
         (scriptKindTracker Example.scriptCreated)
         (modificationTracker Example.scriptCreated)
         (templateSourceMap Example.scriptCreated)
         (console Example.scriptCreated)).
Proof.
  apply (update_after_script_creation Example.env Example.tsModule "c.vue"
           (mkSnapshot "export default {};") 0 "1" true None Example.emptyState
           0 Example.scriptCreated).
  - vm_compute. reflexivity.
  - reflexivity.
Defined.

(** X19: an update whose updated document is template-synthetic derives
    it anew from the snapshot, marked or not, when the markup parser and
    the transform visitor both return: the updated object is injected in
    place, the document returned is the one the host parses from its
    print and is the one marked, both position-map keys are overwritten
    with the map of the two trees, and the classification table is left as
    it was. *)
Theorem updateLanguageServiceSourceFile_template (env : Collaborators)
    (tsModule : T_TypeScript) (existing : nat)
    (snapshot : IScriptSnapshot) (version : string)
    (changeRange : TextChangeRange) (aggressiveChecks : option bool)
    (st : UpdaterState) (updated : nat) (tree : SourceFile)
    (program : ESLintProgram) (expressions : list Expression)
    (derived : nat) (synthetic : SourceFile) :
  hostUpdateLanguageServiceSourceFile tsModule existing snapshot version
    changeRange aggressiveChecks (store st) = (updated, tree) ->
  isVirtualVueTemplateFile env (fileName tree) = true ->
  parse env (parseVueTemplate env (snapshotText snapshot)) = Normal program ->
  transformTemplate env program (parseVueTemplate env (snapshotText snapshot))
  = Transformed expressions ->
  hostCreateSourceFile tsModule (fileName tree)
    (printFile tsModule (injectVueTemplate env tree expressions))
    (languageVersion tree) true JS
    (<[updated := injectVueTemplate env tree expressions]> (store st))
  = (derived, synthetic) ->
  updateLanguageServiceSourceFile env tsModule existing snapshot version
    changeRange aggressiveChecks st
  = (Normal derived,
     let original :=
       if decide (derived = updated) then synthetic
       else injectVueTemplate env tree expressions in
     let sourceMapNodes := generateSourceMap env original synthetic in
     mkState
       (<[derived := synthetic]>
          (<[updated := injectVueTemplate env tree expressions]> (store st)))
       (scriptKindTracker st)
       ({[derived]} ∪ modificationTracker st)
       (<[sliceEnd (fileName tree) 9 := sourceMapNodes]>
          (<[fileName tree := sourceMapNodes]> (templateSourceMap st)))
       (console st)).
Proof.
  intros Hhost Htemplate Hparse Htransform Hderived.
  unfold updateLanguageServiceSourceFile, ulssf.
  unfold bind at 1. unfold scriptKindTracker_get at 1. cbv beta iota.
  unfold bind at 1. unfold hostCall at 1. rewrite Hhost.
  unfold bind at 1. unfold readSourceFile at 1. cbv beta iota. simpl.
  rewrite lookup_insert_eq. rewrite Htemplate. unfold bind at 1.
  erewrite recreateVueTempalteSourceFile_run;
    [|simpl; apply lookup_insert_eq|exact Hparse].
  cbv zeta. rewrite Htransform. simpl.
  rewrite alter_insert_eq, Hderived. reflexivity.
Qed.

Lemma updateLanguageServiceSourceFile_template_witness :
  exists derived st',
    updateLanguageServiceSourceFile Example.env Example.tsModule 0
      Example.byeSnapshot "2" Example.unchangedRange None
      (Example.parsedState "c.vue.template" Example.helloSnapshot)
    = (Normal derived, st').
Proof.
  do 2 eexists.
  eapply (updateLanguageServiceSourceFile_template Example.env Example.tsModule 0
            Example.byeSnapshot "2" Example.unchangedRange None
            (Example.parsedState "c.vue.template" Example.helloSnapshot)
            0
            (mkSourceFile "c.vue.template"
               (ts.createNodeArray
                  (Example.parseText (snapshotText Example.helloSnapshot))) None 0%nat)
            "<template><p>bye</p></template>"
            [IdentifierExpression (ts.createIdentifier "<template><p>bye</p></template>")]).
  - vm_compute. reflexivity.
  - reflexivity.
  - reflexivity.
  - reflexivity.
  - vm_compute. reflexivity.
Defined.


(** C6, the claim fails on the code at a second update.  A [.vue] script
    is created with the classification TS and left alone; its first update
    returns a new document, routed with TS and left alone, for which no
    classification is stored; the update of that document reads
    [undefined] and rewrites the TS script. *)
Theorem update_loses_classification :
  exists created st1 updated st2 again st3,
    createLanguageServiceSourceFile Example.env Example.tsModule "c.vue"
      (mkSnapshot "export default {};") 0 "1" true (Some TS) Example.emptyState
    = (Normal created, st1) /\
    store st1 !! created = Some Example.defaultExportScript /\
    scriptKindTracker_get created st1 = (Normal (Some TS), st1) /\
    updateLanguageServiceSourceFile Example.env Example.tsModule created
      (mkSnapshot "export default {};") "2" Example.changedRange None st1
    = (Normal updated, st2) /\
    updated <> created /\
    store st2 !! updated = Some Example.defaultExportScript /\
    scriptKindTracker_get updated st2 = (Normal None, st2) /\
    updateLanguageServiceSourceFile Example.env Example.tsModule updated
      (mkSnapshot "export default {};") "3" Example.changedRange None st2
    = (Normal again, st3) /\
    store st3 !! again = Some (modifyVueScript Example.defaultExportScript) /\
    modifyVueScript Example.defaultExportScript <> Example.defaultExportScript.
Proof.
  do 6 eexists.
  split; [vm_compute; reflexivity|]. split; [vm_compute; reflexivity|].
  split; [vm_compute; reflexivity|]. split; [vm_compute; reflexivity|].
  split; [discriminate|]. split; [vm_compute; reflexivity|].
  split; [vm_compute; reflexivity|]. split; [vm_compute; reflexivity|].
  split; [vm_compute; reflexivity|]. vm_compute. discriminate.
Qed.
